(** * Approval-workflow router: a shallow embedding and its properties

    The development follows [src/server/db/schema.ts] (the tables and
    their relations) and [src/server/api/routers/workflow.ts] (the four
    procedures [createWorkflowTemplate], [startWorkflow], [takeAction] and
    [getAssignedWorkflows]).

    Scope of the model.
    - A table is the list of its rows in insertion order; a generated
      identity column takes the next value of the table's sequence, and the
      sequences are not exhausted.
    - The numbers of a request are integers ([Z]); a number with a
      fraction is outside the model.  An [integer] column or parameter
      takes the 32-bit range and the store refuses any other value.
    - Text is a [string] of one-byte characters; the store refuses text
      with a NUL character, as a value of a row or as a parameter of a
      query, and a [varchar(n)] column refuses a value of more than [n]
      characters unless the excess is blank, which it drops.  A timestamp
      is a [Z].
    - The [references] clauses of the schema are checked on insert, after
      the rows of the statement are formed.
    - A relational query ([db.query...]) resolves the relations named by
      its [with] against the relations the schema declares before it
      reads.
    - A procedure body runs in [transaction]: when it throws, the tables are
      restored; sequence values that were drawn stay drawn.
    - [takeAction] names [handleApproval] and [handleRejection], which
      [workflow.ts] neither defines nor imports.
    - One call runs at a time. *)

From Stdlib Require Import ZArith List Ascii String Bool Lia Permutation Sorted.
Import ListNotations.
Local Open Scope string_scope.
Local Open Scope Z_scope.
Local Open Scope list_scope.

(** ** Values *)

Definition Timestamp := Z.

(** The payload of a [jsonb] column ([z.record(z.any())] at the boundary). *)
#[warnings="-register-all"] Inductive Json : Type :=
| JNull
| JBool (b : bool)
| JNum (n : Z)
| JStr (s : string)
| JArr (items : list Json)
| JObj (fields : list (string * Json)).

(** [z.enum(["APPROVE", "REJECT", "MODIFY"])] *)
Inductive ActionType : Type := APPROVE | REJECT | MODIFY.

(** ** Rows, one module per table of [schema.ts] *)

Module User.
Record t := mk { id : string; name : string }.
End User.

Module Role.
Record t := mk {
  id : Z; name : string; description : option string; createdAt : Timestamp }.
End Role.

Module UserRole.
Record t := mk {
  userId : string; roleId : Z; isPrimary : bool; createdAt : Timestamp }.
End UserRole.

Module Template.
Record t := mk {
  id : Z; name : string; description : option string; isActive : bool;
  createdAt : Timestamp }.
End Template.

Module Step.
Record t := mk {
  id : Z; workflowTemplateId : Z; name : string; stepOrder : Z; roleId : Z;
  isMandatory : bool; canModify : bool; rejectionStepId : option Z;
  createdAt : Timestamp }.
End Step.

Module Transition.
Record t := mk {
  id : Z; fromStepId : Z; toStepId : Z; conditionType : option string;
  conditionValue : option Json; createdAt : Timestamp }.
End Transition.

Module Instance.
(** The values of the [status] column that the router names. *)
Inductive Status : Type := ACTIVE | COMPLETED | REJECTED.

Definition status_eqb (a b : Status) : bool :=
  match a, b with
  | ACTIVE, ACTIVE | COMPLETED, COMPLETED | REJECTED, REJECTED => true
  | _, _ => false
  end.

Record t := mk {
  id : Z; workflowTemplateId : Z; currentStepId : Z;
  currentAssigneeId : option string; entityType : string; entityId : Z;
  status : Status; createdAt : Timestamp; completedAt : option Timestamp }.
End Instance.

Module Assignment.
Inductive Status : Type := PENDING | COMPLETED.

Record t := mk {
  id : Z; workflowInstanceId : Z; stepId : Z; assigneeId : string;
  status : Status; assignedAt : Timestamp; completedAt : option Timestamp }.
End Assignment.

Module Action.
Record t := mk {
  id : Z; workflowInstanceId : Z; stepId : Z; userId : string;
  actionType : ActionType; comments : option string;
  dataModifications : option Json; createdAt : Timestamp }.
End Action.

(** ** The store *)

Record Tables := mkTables {
  users : list User.t;
  roles : list Role.t;
  userRoles : list UserRole.t;
  workflowTemplates : list Template.t;
  workflowSteps : list Step.t;
  workflowStepTransitions : list Transition.t;
  workflowInstances : list Instance.t;
  workflowStepAssignments : list Assignment.t;
  workflowActions : list Action.t }.

(** Next value of each [generatedByDefaultAsIdentity] column. *)
Record Sequences := mkSequences {
  templates_seq : Z;
  steps_seq : Z;
  transitions_seq : Z;
  instances_seq : Z;
  assignments_seq : Z;
  actions_seq : Z }.

Record DB := mkDB { tables : Tables; seqs : Sequences }.

(** ** Errors *)

Inductive Error : Type :=
| WorkflowTemplateNotCreated
| TemplateNotFoundOrNoSteps
| TemplateHasNoFirstStep
| NoEligibleUsers
| InstanceNotCreated
| WorkflowInstanceNotFound
| NotAuthorized
| ReferenceError (identifier : string)
| EmptyValues
| RelationNotInferred (relation : string)
| AmbiguousRelation (relation : string)
| OutOfRange (column : string)
| InvalidText (column : string)
| ValueTooLong (column : string)
| ForeignKeyViolation (column : string).

(** The text each error carries.  The first seven are the router's
    [new Error(...)]; [ReferenceError] is the language's, for an identifier
    that is not defined; the next three are the query builder's; the last
    four stand for the store's. *)
Definition message (e : Error) : string :=
  match e with
  | WorkflowTemplateNotCreated => "Workflow template not created"
  | TemplateNotFoundOrNoSteps => "Workflow template not found or has no steps"
  | TemplateHasNoFirstStep => "Workflow template has no first step"
  | NoEligibleUsers => "No eligible users found for first step"
  | InstanceNotCreated => "instance not found"
  | WorkflowInstanceNotFound => "Workflow instance not found"
  | NotAuthorized => "Not authorized to take action on this step"
  | ReferenceError x => x ++ " is not defined"
  | EmptyValues => "values() must be called with at least one value"
  | RelationNotInferred r =>
      "There is not enough information to infer relation " ++ r
  | AmbiguousRelation r => "There are multiple relations for " ++ r
  | OutOfRange c => "value out of range for type integer: " ++ c
  | InvalidText c => "invalid byte sequence: " ++ c
  | ValueTooLong c => "value too long for type character varying: " ++ c
  | ForeignKeyViolation c => "violates foreign key constraint on " ++ c
  end%string.

(** The errors with which the store refuses a statement. *)
Definition store_refusal (e : Error) : bool :=
  match e with
  | OutOfRange _ | InvalidText _ | ValueTooLong _ | ForeignKeyViolation _ =>
      true
  | _ => false
  end.

(** The error taxonomy of the specification. *)
Inductive ErrorKind : Type :=
| ValidationError
| NotFoundError
| NoEligibleAssigneeError
| UnauthorizedActionError
| InstanceClosedError
| ForbiddenActionError
| ConcurrencyConflictError
| InternalError.

(** Which kind of the taxonomy an error stands for: the router's errors
    by what their text says, every other error as an internal one. *)
Definition kind (e : Error) : ErrorKind :=
  match e with
  | TemplateNotFoundOrNoSteps | TemplateHasNoFirstStep
  | WorkflowInstanceNotFound => NotFoundError
  | NoEligibleUsers => NoEligibleAssigneeError
  | NotAuthorized => UnauthorizedActionError
  | WorkflowTemplateNotCreated | InstanceNotCreated | ReferenceError _
  | EmptyValues | RelationNotInferred _ | AmbiguousRelation _
  | OutOfRange _ | InvalidText _ | ValueTooLong _
  | ForeignKeyViolation _ => InternalError
  end.

(** ** Transactions: state passing with exceptions *)

Inductive Result (A : Type) : Type :=
| Ok (a : A)
| Err (e : Error).
Arguments Ok {A} a.
Arguments Err {A} e.

Definition Tx (A : Type) : Type := DB -> Result A * DB.

Definition ret {A} (a : A) : Tx A := fun db => (Ok a, db).

Definition throw {A} (e : Error) : Tx A := fun db => (Err e, db).

Definition bind {A B} (m : Tx A) (k : A -> Tx B) : Tx B :=
  fun db =>
    match m db with
    | (Ok a, db1) => k a db1
    | (Err e, db1) => (Err e, db1)
    end.

Notation "x <- m ;; k" := (bind m (fun x => k))
  (at level 61, m at next level, right associativity).

(** Reading the store. *)
Definition query {A} (q : DB -> A) : Tx A := fun db => (Ok (q db), db).

(** [db.transaction(async (tx) => ...)]: a throw restores the rows. *)
Definition transaction {A} (body : Tx A) : Tx A :=
  fun db =>
    match body db with
    | (Ok a, db1) => (Ok a, db1)
    | (Err e, db1) => (Err e, mkDB (tables db) (seqs db1))
    end.

(** [Promise.all(xs.map(async (x) => ...))] on one connection: the
    statements run in list order and the first rejection is thrown. *)
Fixpoint mapM {A B} (f : A -> Tx B) (xs : list A) : Tx (list B) :=
  match xs with
  | [] => ret []
  | x :: xs' => y <- f x ;; ys <- mapM f xs' ;; ret (y :: ys)
  end.

(** ** What the columns take

    An [integer] column or parameter takes the 32-bit range.  Text may not
    hold a NUL character.  A [varchar(n)] column takes a value of at most
    [n] characters, and a longer one when the excess is blank, which is
    dropped; [clip] is the value stored. *)

Definition is_int4 (z : Z) : bool :=
  (-2147483648 <=? z) && (z <=? 2147483647).

Fixpoint text_ok (s : string) : bool :=
  match s with
  | EmptyString => true
  | String c s' => negb (Ascii.eqb c Ascii.zero) && text_ok s'
  end.

Fixpoint blank (s : string) : bool :=
  match s with
  | EmptyString => true
  | String c s' => Ascii.eqb c " " && blank s'
  end.

Definition length_ok (n : nat) (s : string) : bool :=
  (String.length s <=? n)%nat
  || blank (String.substring n (String.length s - n) s).

Definition clip (n : nat) (s : string) : string := String.substring 0 n s.

Definition varchar_ok (n : nat) (s : string) : bool :=
  text_ok s && length_ok n s.

(** A [jsonb] value takes no string with a NUL character. *)
Fixpoint json_ok (j : Json) : bool :=
  match j with
  | JNull | JBool _ | JNum _ => true
  | JStr s => text_ok s
  | JArr items => forallb json_ok items
  | JObj fields =>
      forallb (fun f => let '(k, v) := f in text_ok k && json_ok v) fields
  end.

(** The refusal of one value, if the store refuses it. *)
Definition refuse_integer (column : string) (z : Z) : option Error :=
  if is_int4 z then None else Some (OutOfRange column).

Definition refuse_text (column : string) (s : string) : option Error :=
  if text_ok s then None else Some (InvalidText column).

Definition refuse_length (n : nat) (column : string) (s : string)
  : option Error :=
  if length_ok n s then None else Some (ValueTooLong column).

Definition refuse_jsonb (column : string) (j : Json) : option Error :=
  if json_ok j then None else Some (InvalidText column).

(** A column that may be null. *)
Definition optionally {A} (refuse : A -> option Error) (v : option A)
  : option Error :=
  match v with
  | Some a => refuse a
  | None => None
  end.

Fixpoint first_refusal (checks : list (option Error)) : option Error :=
  match checks with
  | [] => None
  | Some e :: _ => Some e
  | None :: checks' => first_refusal checks'
  end.

(** The values of a statement are checked before anything is written:
    the first refusal is thrown. *)
Definition bind_values (checks : list (option Error)) : Tx unit :=
  match first_refusal checks with
  | Some e => throw e
  | None => ret tt
  end.

(** ** The relations of [schema.ts] and how a query resolves them

    [relations(table, ...)] declares, for a table, named relations to
    other tables: [one] with the columns that join ([fields],
    [references]), or [many], which names no columns.  A query that asks
    for a relation takes the columns of a [one] relation from its
    declaration; for any other relation it looks, among the relations
    declared for the referenced table, for the relation that points back:
    the one of the same [relationName], or, without a name, the one that
    references the source table.  It throws when there are several, and
    when there is none that is a [one] with columns. *)

Module Schema.
Inductive Table : Type :=
| users | roles | userRoles | workflowTemplates | workflowSteps
| workflowStepTransitions | workflowInstances | workflowStepAssignments
| workflowActions.

Definition table_eqb (a b : Table) : bool :=
  match a, b with
  | users, users | roles, roles | userRoles, userRoles
  | workflowTemplates, workflowTemplates | workflowSteps, workflowSteps
  | workflowStepTransitions, workflowStepTransitions
  | workflowInstances, workflowInstances
  | workflowStepAssignments, workflowStepAssignments
  | workflowActions, workflowActions => true
  | _, _ => false
  end.

(** The name under which the schema exports the table. *)
Definition tsName (t : Table) : string :=
  match t with
  | users => "users"
  | roles => "roles"
  | userRoles => "userRoles"
  | workflowTemplates => "workflowTemplates"
  | workflowSteps => "workflowSteps"
  | workflowStepTransitions => "workflowStepTransitions"
  | workflowInstances => "workflowInstances"
  | workflowStepAssignments => "workflowStepAssignments"
  | workflowActions => "workflowActions"
  end.

(** [columns] is [Some (field, reference)] for a [one] declared with
    [fields] and [references]. *)
Record Relation := mk {
  sourceTable : Table;
  fieldName : string;
  referencedTable : Table;
  isOne : bool;
  columns : option (string * string);
  relationName : option string }.

Definition one (source : Table) (field : string) (referenced : Table)
    (column reference : string) : Relation :=
  mk source field referenced true (Some (column, reference)) None.

Definition many (source : Table) (field : string) (referenced : Table)
    (name : option string) : Relation :=
  mk source field referenced false None name.

(** The relations the procedures ask for. *)
Definition userRoles_user : Relation :=
  one userRoles "user" users "user_id" "id".
Definition workflowTemplates_steps : Relation :=
  many workflowTemplates "steps" workflowSteps None.
Definition workflowSteps_fromTransitions : Relation :=
  many workflowSteps "fromTransitions" workflowStepTransitions
    (Some "fromTransitions").
Definition workflowInstances_template : Relation :=
  one workflowInstances "template" workflowTemplates
    "workflow_template_id" "id".
Definition workflowInstances_currentStep : Relation :=
  one workflowInstances "currentStep" workflowSteps "current_step_id" "id".
Definition workflowInstances_currentAssignee : Relation :=
  one workflowInstances "currentAssignee" users "current_assignee_id" "id".

(** Every relation of the schema, in the order of the file: those of
    [users], [roles], [userRoles], [workflowTemplates], [workflowSteps]
    and [workflowInstances].  None is declared for
    [workflowStepTransitions], [workflowStepAssignments] and
    [workflowActions]. *)
Definition relations : list Relation :=
  [ many users "userRoles" userRoles None;
    many users "assignedWorkflows" workflowInstances
      (Some "assignedWorkflows");
    many users "workflowActions" workflowActions None;
    many roles "userRoles" userRoles None;
    many roles "workflowSteps" workflowSteps None;
    userRoles_user;
    one userRoles "role" roles "role_id" "id";
    workflowTemplates_steps;
    many workflowTemplates "instances" workflowInstances None;
    one workflowSteps "template" workflowTemplates "workflow_template_id"
      "id";
    one workflowSteps "role" roles "role_id" "id";
    one workflowSteps "rejectionStep" workflowSteps "rejection_step_id" "id";
    workflowSteps_fromTransitions;
    many workflowSteps "toTransitions" workflowStepTransitions
      (Some "toTransitions");
    many workflowSteps "assignments" workflowStepAssignments None;
    many workflowSteps "actions" workflowActions None;
    workflowInstances_template;
    workflowInstances_currentStep;
    workflowInstances_currentAssignee;
    many workflowInstances "assignments" workflowStepAssignments None;
    many workflowInstances "actions" workflowActions None ].

Definition same_relation (a b : Relation) : bool :=
  table_eqb (sourceTable a) (sourceTable b)
  && String.eqb (fieldName a) (fieldName b).

(** [r'] is declared for the table [r] references and points back. *)
Definition points_back (r r' : Relation) : bool :=
  table_eqb (sourceTable r') (referencedTable r)
  && match relationName r with
     | Some name =>
         negb (same_relation r r')
         && match relationName r' with
            | Some name' => String.eqb name' name
            | None => false
            end
     | None => table_eqb (referencedTable r') (sourceTable r)
     end.

Definition qualified (r : Relation) : string :=
  tsName (sourceTable r) ++ "." ++ fieldName r.

(** The columns that join the rows of the source table (first) to the
    rows of the referenced table (second). *)
Definition normalizeRelation (schema : list Relation) (r : Relation)
  : Error + string * string :=
  match (if isOne r then columns r else None) with
  | Some join => inr join
  | None =>
      match filter (points_back r) schema with
      | _ :: _ :: _ => inl (AmbiguousRelation (qualified r))
      | [r'] =>
          match (if isOne r' then columns r' else None) with
          | Some (column, reference) => inr (reference, column)
          | None => inl (RelationNotInferred (qualified r))
          end
      | [] => inl (RelationNotInferred (qualified r))
      end
  end.
End Schema.

(** A query asks for a relation. *)
Definition with_relation (r : Schema.Relation) : Tx (string * string) :=
  match Schema.normalizeRelation Schema.relations r with
  | inl e => throw e
  | inr join => ret join
  end.

(** ** Lookups *)

Definition find_user (db : DB) (uid : string) : option User.t :=
  find (fun u => String.eqb (User.id u) uid) (users (tables db)).

Definition find_role (db : DB) (rid : Z) : option Role.t :=
  find (fun r => Role.id r =? rid) (roles (tables db)).

Definition find_template (db : DB) (tid : Z) : option Template.t :=
  find (fun t => Template.id t =? tid) (workflowTemplates (tables db)).

Definition find_step (db : DB) (sid : Z) : option Step.t :=
  find (fun s => Step.id s =? sid) (workflowSteps (tables db)).

Definition find_instance (db : DB) (iid : Z) : option Instance.t :=
  find (fun i => Instance.id i =? iid) (workflowInstances (tables db)).

Definition is_some {A} (o : option A) : bool :=
  match o with Some _ => true | None => false end.

(** ** Writes

    Each setter replaces one table; each insert has the store check its
    values, draws the identity from the table's sequence, checks the
    [references] of its columns and appends the row.  An insert with
    [.returning()] yields the list of inserted rows. *)

Definition set_templates (l : list Template.t) (db : DB) : DB :=
  let t := tables db in
  mkDB (mkTables (users t) (roles t) (userRoles t) l (workflowSteps t)
          (workflowStepTransitions t) (workflowInstances t)
          (workflowStepAssignments t) (workflowActions t))
       (seqs db).

Definition set_steps (l : list Step.t) (db : DB) : DB :=
  let t := tables db in
  mkDB (mkTables (users t) (roles t) (userRoles t) (workflowTemplates t) l
          (workflowStepTransitions t) (workflowInstances t)
          (workflowStepAssignments t) (workflowActions t))
       (seqs db).

Definition set_transitions (l : list Transition.t) (db : DB) : DB :=
  let t := tables db in
  mkDB (mkTables (users t) (roles t) (userRoles t) (workflowTemplates t)
          (workflowSteps t) l (workflowInstances t)
          (workflowStepAssignments t) (workflowActions t))
       (seqs db).

Definition set_instances (l : list Instance.t) (db : DB) : DB :=
  let t := tables db in
  mkDB (mkTables (users t) (roles t) (userRoles t) (workflowTemplates t)
          (workflowSteps t) (workflowStepTransitions t) l
          (workflowStepAssignments t) (workflowActions t))
       (seqs db).

Definition set_assignments (l : list Assignment.t) (db : DB) : DB :=
  let t := tables db in
  mkDB (mkTables (users t) (roles t) (userRoles t) (workflowTemplates t)
          (workflowSteps t) (workflowStepTransitions t) (workflowInstances t)
          l (workflowActions t))
       (seqs db).

Definition set_actions (l : list Action.t) (db : DB) : DB :=
  let t := tables db in
  mkDB (mkTables (users t) (roles t) (userRoles t) (workflowTemplates t)
          (workflowSteps t) (workflowStepTransitions t) (workflowInstances t)
          (workflowStepAssignments t) l)
       (seqs db).

Definition set_seqs (s : Sequences) (db : DB) : DB := mkDB (tables db) s.

Arguments set_templates l db /.
Arguments set_steps l db /.
Arguments set_transitions l db /.
Arguments set_instances l db /.
Arguments set_assignments l db /.
Arguments set_actions l db /.
Arguments set_seqs s db /.

Definition bump_templates (n : Z) (s : Sequences) : Sequences :=
  mkSequences (templates_seq s + n) (steps_seq s) (transitions_seq s)
    (instances_seq s) (assignments_seq s) (actions_seq s).
Definition bump_steps (n : Z) (s : Sequences) : Sequences :=
  mkSequences (templates_seq s) (steps_seq s + n) (transitions_seq s)
    (instances_seq s) (assignments_seq s) (actions_seq s).
Definition bump_transitions (n : Z) (s : Sequences) : Sequences :=
  mkSequences (templates_seq s) (steps_seq s) (transitions_seq s + n)
    (instances_seq s) (assignments_seq s) (actions_seq s).
Definition bump_instances (n : Z) (s : Sequences) : Sequences :=
  mkSequences (templates_seq s) (steps_seq s) (transitions_seq s)
    (instances_seq s + n) (assignments_seq s) (actions_seq s).
Definition bump_assignments (n : Z) (s : Sequences) : Sequences :=
  mkSequences (templates_seq s) (steps_seq s) (transitions_seq s)
    (instances_seq s) (assignments_seq s + n) (actions_seq s).
Definition bump_actions (n : Z) (s : Sequences) : Sequences :=
  mkSequences (templates_seq s) (steps_seq s) (transitions_seq s)
    (instances_seq s) (assignments_seq s) (actions_seq s + n).

(** [nextval]: the current value is drawn and the sequence moves on by [n]
    (a multi-row insert draws [n] consecutive values). *)
Definition nextval (current : Sequences -> Z)
    (bump : Z -> Sequences -> Sequences) (n : Z) : Tx Z :=
  fun db => (Ok (current (seqs db)), set_seqs (bump n (seqs db)) db).

Definition next_template_id : Tx Z := nextval templates_seq bump_templates 1.
Definition next_step_id : Tx Z := nextval steps_seq bump_steps 1.
Definition next_transition_ids (n : Z) : Tx Z :=
  nextval transitions_seq bump_transitions n.
Definition next_instance_id : Tx Z := nextval instances_seq bump_instances 1.
Definition next_assignment_id : Tx Z :=
  nextval assignments_seq bump_assignments 1.
Definition next_action_id : Tx Z := nextval actions_seq bump_actions 1.

(** A [references] check: the referenced row must exist. *)
Definition references (column : string) (present : DB -> bool) : Tx unit :=
  fun db => if present db then (Ok tt, db)
            else (Err (ForeignKeyViolation column), db).

Definition template_exists (tid : Z) (db : DB) : bool :=
  is_some (find_template db tid).
Definition role_exists (rid : Z) (db : DB) : bool :=
  is_some (find_role db rid).
Definition step_exists (sid : Z) (db : DB) : bool :=
  is_some (find_step db sid).
Definition instance_exists (iid : Z) (db : DB) : bool :=
  is_some (find_instance db iid).
Definition user_exists (uid : string) (db : DB) : bool :=
  is_some (find_user db uid).

(** The checks on the values of a template row. *)
Definition template_refusals (name description : string)
  : list (option Error) :=
  [ refuse_text "workflow_templates.name" name;
    refuse_text "workflow_templates.description" description;
    refuse_length 255 "workflow_templates.name" name ].

Definition insert_template (now : Timestamp) (name description : string)
  : Tx (list Template.t) :=
  _ <- bind_values (template_refusals name description) ;;
  id <- next_template_id ;;
  let row := Template.mk id (clip 255 name) (Some description) true now in
  fun db =>
    (Ok [row], set_templates (workflowTemplates (tables db) ++ [row]) db).

(** ** Request shapes (the [z.object] of each procedure) *)

Module NewStep.
Record t := mk {
  name : string; stepOrder : Z; roleId : Z; isMandatory : bool;
  canModify : bool; rejectionStepId : option Z }.
End NewStep.

Module NewTransition.
Record t := mk {
  fromStepId : Z; toStepId : Z; conditionType : option string;
  conditionValue : option Json }.
End NewTransition.

Module CreateInput.
Record t := mk {
  name : string; description : string; steps : list NewStep.t;
  transitions : list NewTransition.t }.
End CreateInput.

Module StartInput.
Record t := mk { templateId : Z; entityType : string; entityId : Z }.
End StartInput.

Module ActionInput.
Record t := mk {
  instanceId : Z; userId : string; actionType : ActionType;
  comments : option string; dataModifications : option Json }.
End ActionInput.

Module AssignedInput.
Record t := mk { userId : string; status : option Instance.Status }.
End AssignedInput.

(** ** Inserts of the remaining tables *)

(** The checks on the values of a step row; the template identity is the
    one the store has just handed out. *)
Definition step_refusals (v : NewStep.t) : list (option Error) :=
  [ refuse_text "workflow_steps.name" (NewStep.name v);
    refuse_integer "workflow_steps.step_order" (NewStep.stepOrder v);
    refuse_integer "workflow_steps.role_id" (NewStep.roleId v);
    optionally (refuse_integer "workflow_steps.rejection_step_id")
      (NewStep.rejectionStepId v);
    refuse_length 255 "workflow_steps.name" (NewStep.name v) ].

(** [.values({ ...step, workflowTemplateId })]; the reference of
    [rejectionStepId] is commented out in the schema, so it is not checked. *)
Definition insert_step (now : Timestamp) (templateId : Z) (v : NewStep.t)
  : Tx (list Step.t) :=
  _ <- bind_values (step_refusals v) ;;
  id <- next_step_id ;;
  _ <- references "workflow_steps.workflow_template_id"
         (template_exists templateId) ;;
  _ <- references "workflow_steps.role_id"
         (role_exists (NewStep.roleId v)) ;;
  let row :=
    Step.mk id templateId (clip 255 (NewStep.name v)) (NewStep.stepOrder v)
      (NewStep.roleId v) (NewStep.isMandatory v) (NewStep.canModify v)
      (NewStep.rejectionStepId v) now in
  fun db => (Ok [row], set_steps (workflowSteps (tables db) ++ [row]) db).

(** The rows of one multi-row insert, numbered from [id]. *)
Fixpoint transition_rows (id : Z) (date : Timestamp)
    (vs : list NewTransition.t) : list Transition.t :=
  match vs with
  | [] => []
  | v :: vs' =>
      Transition.mk id (NewTransition.fromStepId v) (NewTransition.toStepId v)
        (option_map (clip 50) (NewTransition.conditionType v))
        (NewTransition.conditionValue v) date
      :: transition_rows (id + 1) date vs'
  end.

(** The checks on the values of one transition row. *)
Definition transition_refusals (v : NewTransition.t) : list (option Error) :=
  [ refuse_integer "workflow_step_transitions.from_step_id"
      (NewTransition.fromStepId v);
    refuse_integer "workflow_step_transitions.to_step_id"
      (NewTransition.toStepId v);
    optionally (refuse_text "workflow_step_transitions.condition_type")
      (NewTransition.conditionType v);
    optionally (refuse_jsonb "workflow_step_transitions.condition_value")
      (NewTransition.conditionValue v);
    optionally (refuse_length 50 "workflow_step_transitions.condition_type")
      (NewTransition.conditionType v) ].

(** The references of one transition row: the store reports the one of
    [to_step_id] before the one of [from_step_id]. *)
Definition transition_references (v : NewTransition.t) : Tx unit :=
  _ <- references "workflow_step_transitions.to_step_id"
         (step_exists (NewTransition.toStepId v)) ;;
  references "workflow_step_transitions.from_step_id"
    (step_exists (NewTransition.fromStepId v)).

(** [.values(rows)] of the query builder throws on an empty array; [date]
    is the [new Date()] the router puts in every row.  The references are
    checked row by row. *)
Definition insert_transitions (date : Timestamp) (vs : list NewTransition.t)
  : Tx unit :=
  match vs with
  | [] => throw EmptyValues
  | _ :: _ =>
      _ <- bind_values (flat_map transition_refusals vs) ;;
      id <- next_transition_ids (Z.of_nat (List.length vs)) ;;
      _ <- mapM transition_references vs ;;
      fun db =>
        (Ok tt,
         set_transitions
           (workflowStepTransitions (tables db) ++ transition_rows id date vs)
           db)
  end.

(** The checks on the values of an instance row: the text of the
    assignee and the values that come from the request. *)
Definition instance_refusals (assigneeId : option string)
    (entityType : string) (entityId : Z) : list (option Error) :=
  [ optionally (refuse_text "workflow_instances.current_assignee_id")
      assigneeId;
    refuse_text "workflow_instances.entity_type" entityType;
    refuse_integer "workflow_instances.entity_id" entityId;
    refuse_length 50 "workflow_instances.entity_type" entityType ].

Definition insert_instance (now : Timestamp) (templateId stepId : Z)
    (assigneeId : option string) (entityType : string) (entityId : Z)
    (status : Instance.Status) : Tx (list Instance.t) :=
  _ <- bind_values (instance_refusals assigneeId entityType entityId) ;;
  id <- next_instance_id ;;
  _ <- references "workflow_instances.workflow_template_id"
         (template_exists templateId) ;;
  _ <- references "workflow_instances.current_step_id"
         (step_exists stepId) ;;
  _ <- references "workflow_instances.current_assignee_id"
         (fun db => match assigneeId with
                    | Some u => user_exists u db
                    | None => true
                    end) ;;
  let row :=
    Instance.mk id templateId stepId assigneeId (clip 50 entityType) entityId
      status now None in
  fun db =>
    (Ok [row], set_instances (workflowInstances (tables db) ++ [row]) db).

Definition insert_assignment (now : Timestamp) (instanceId stepId : Z)
    (assigneeId : string) (status : Assignment.Status) : Tx unit :=
  _ <- bind_values
         [refuse_text "workflow_step_assignments.assignee_id" assigneeId] ;;
  id <- next_assignment_id ;;
  _ <- references "workflow_step_assignments.workflow_instance_id"
         (instance_exists instanceId) ;;
  _ <- references "workflow_step_assignments.step_id"
         (step_exists stepId) ;;
  _ <- references "workflow_step_assignments.assignee_id"
         (user_exists assigneeId) ;;
  let row := Assignment.mk id instanceId stepId assigneeId status now None in
  fun db =>
    (Ok tt,
     set_assignments (workflowStepAssignments (tables db) ++ [row]) db).

(** The checks on the values of an audit row that come from the request. *)
Definition action_refusals (userId : string) (comments : option string)
    (dataModifications : option Json) : list (option Error) :=
  [ refuse_text "workflow_actions.user_id" userId;
    optionally (refuse_text "workflow_actions.comments") comments;
    optionally (refuse_jsonb "workflow_actions.data_modifications")
      dataModifications ].

Definition insert_action (now : Timestamp) (instanceId stepId : Z)
    (userId : string) (actionType : ActionType) (comments : option string)
    (dataModifications : option Json) : Tx (list Action.t) :=
  _ <- bind_values (action_refusals userId comments dataModifications) ;;
  id <- next_action_id ;;
  _ <- references "workflow_actions.workflow_instance_id"
         (instance_exists instanceId) ;;
  _ <- references "workflow_actions.step_id" (step_exists stepId) ;;
  _ <- references "workflow_actions.user_id" (user_exists userId) ;;
  let row :=
    Action.mk id instanceId stepId userId actionType comments
      dataModifications now in
  fun db => (Ok [row], set_actions (workflowActions (tables db) ++ [row]) db).

(** ** [orderBy]: a stable insertion sort on an integer key *)

Section SortBy.
Context {A : Type} (key : A -> Z).

Fixpoint insert_by (x : A) (l : list A) : list A :=
  match l with
  | [] => [x]
  | y :: l' => if key x <=? key y then x :: l else y :: insert_by x l'
  end.

Fixpoint sort_by (l : list A) : list A :=
  match l with
  | [] => []
  | x :: l' => insert_by x (sort_by l')
  end.

(** The order the sort establishes. *)
Definition key_le (a b : A) : Prop := key a <= key b.
End SortBy.

(** ** [createWorkflowTemplate] *)

Definition createWorkflowTemplate (now date : Timestamp)
    (input : CreateInput.t) : Tx Template.t :=
  transaction (
    rows <- insert_template now (CreateInput.name input)
              (CreateInput.description input) ;;
    match rows with
    | [] => throw WorkflowTemplateNotCreated
    | template :: _ =>
        steps <- mapM (fun step =>
                   returned <- insert_step now (Template.id template) step ;;
                   ret (hd_error returned))
                 (CreateInput.steps input) ;;
        _ <- (if 0 <? Z.of_nat (List.length steps)
              then insert_transitions date (CreateInput.transitions input)
              else ret tt) ;;
        ret template
    end).

(** ** What [createWorkflowTemplate] leaves in the store when it succeeds *)

(** The step rows of one call, numbered from [id]. *)
Fixpoint step_rows (now : Timestamp) (templateId id : Z)
    (vs : list NewStep.t) : list Step.t :=
  match vs with
  | [] => []
  | v :: vs' =>
      Step.mk id templateId (clip 255 (NewStep.name v)) (NewStep.stepOrder v)
        (NewStep.roleId v) (NewStep.isMandatory v) (NewStep.canModify v)
        (NewStep.rejectionStepId v) now
      :: step_rows now templateId (id + 1) vs'
  end.

Definition created_template (now : Timestamp) (input : CreateInput.t)
    (db : DB) : Template.t :=
  Template.mk (templates_seq (seqs db)) (clip 255 (CreateInput.name input))
    (Some (CreateInput.description input)) true now.

(** The store with the template and its steps in. *)
Definition with_template_and_steps (now : Timestamp) (input : CreateInput.t)
    (db : DB) : DB :=
  let t := created_template now input db in
  set_steps
    (workflowSteps (tables db)
     ++ step_rows now (Template.id t) (steps_seq (seqs db))
          (CreateInput.steps input))
    (set_templates (workflowTemplates (tables db) ++ [t])
       (set_seqs
          (bump_steps (Z.of_nat (List.length (CreateInput.steps input)))
             (bump_templates 1 (seqs db)))
          db)).

(** The store with the transitions in as well, when there are steps. *)
Definition created (now date : Timestamp) (input : CreateInput.t) (db : DB)
  : DB :=
  let db2 := with_template_and_steps now input db in
  match CreateInput.steps input with
  | [] => db2
  | _ :: _ =>
      set_transitions
        (workflowStepTransitions (tables db)
         ++ transition_rows (transitions_seq (seqs db)) date
              (CreateInput.transitions input))
        (set_seqs
           (bump_transitions
              (Z.of_nat (List.length (CreateInput.transitions input)))
              (seqs db2))
           db2)
  end.

(** Every role named by the steps exists. *)
Definition roles_present (vs : list NewStep.t) (db : DB) : bool :=
  forallb (fun v => role_exists (NewStep.roleId v) db) vs.

(** Both ends of every transition are steps of the store. *)
Definition endpoints_present (vs : list NewTransition.t) (db : DB) : bool :=
  forallb (fun v => step_exists (NewTransition.fromStepId v) db) vs
  && forallb (fun v => step_exists (NewTransition.toStepId v) db) vs.

(** The values the store takes for a template, a step, a transition and
    an instance. *)
Definition is_null_or {A} (p : A -> bool) (v : option A) : bool :=
  match v with
  | Some a => p a
  | None => true
  end.

Definition template_fits (name description : string) : bool :=
  varchar_ok 255 name && text_ok description.

Definition step_fits (v : NewStep.t) : bool :=
  varchar_ok 255 (NewStep.name v)
  && is_int4 (NewStep.stepOrder v)
  && is_int4 (NewStep.roleId v)
  && is_null_or is_int4 (NewStep.rejectionStepId v).

Definition transition_fits (v : NewTransition.t) : bool :=
  is_int4 (NewTransition.fromStepId v)
  && is_int4 (NewTransition.toStepId v)
  && is_null_or (varchar_ok 50) (NewTransition.conditionType v)
  && is_null_or json_ok (NewTransition.conditionValue v).

Definition instance_fits (assigneeId : option string) (entityType : string)
    (entityId : Z) : bool :=
  is_null_or text_ok assigneeId && varchar_ok 50 entityType
  && is_int4 entityId.

(** What makes a [createWorkflowTemplate] call go through: the store
    takes the values of the template and of every step, the role of every
    step exists, and, when there are steps, the list of transitions is not
    empty, the store takes their values and both ends of each exist once
    the steps are in. *)
Definition create_accepted (now : Timestamp) (input : CreateInput.t) (db : DB)
  : bool :=
  template_fits (CreateInput.name input) (CreateInput.description input)
  && forallb (fun v => step_fits v && role_exists (NewStep.roleId v) db)
       (CreateInput.steps input)
  && match CreateInput.steps input, CreateInput.transitions input with
     | [], _ => true
     | _ :: _, [] => false
     | _ :: _, _ :: _ =>
         forallb transition_fits (CreateInput.transitions input)
         && endpoints_present (CreateInput.transitions input)
              (with_template_and_steps now input db)
     end.

(** The two ends of a transition, as supplied and as stored. *)
Definition supplied_ends (v : NewTransition.t) : Z * Z :=
  (NewTransition.fromStepId v, NewTransition.toStepId v).
Definition stored_ends (t : Transition.t) : Z * Z :=
  (Transition.fromStepId t, Transition.toStepId t).

(** ** [startWorkflow] *)

(** The rows of [findFirst] on [workflowTemplates] with the steps of
    order 1, at most one of them. *)
Definition select_template_with_entry_step (tid : Z) (db : DB)
  : option (Template.t * list Step.t) :=
  match find_template db tid with
  | None => None
  | Some t =>
      Some (t, firstn 1
                 (filter (fun s =>
                            (Step.workflowTemplateId s =? Template.id t)
                            && (Step.stepOrder s =? 1))
                    (workflowSteps (tables db))))
  end.

(** That query: the relation [steps] is resolved, the identity is bound
    to an [integer] parameter and the rows are read. *)
Definition template_with_entry_step (tid : Z)
  : Tx (option (Template.t * list Step.t)) :=
  _ <- with_relation Schema.workflowTemplates_steps ;;
  _ <- bind_values [refuse_integer "workflow_templates.id" tid] ;;
  query (select_template_with_entry_step tid).

(** The rows of [findFirst] on [userRoles] with its user.  The filter of
    the source names the column [role_id] through the steps table; the
    relational query resolves a column of a filter against the table it
    queries, so the rows kept are the [userRoles] rows of that role. *)
Definition first_user_role (rid : Z) (db : DB)
  : option (UserRole.t * option User.t) :=
  match find (fun ur => UserRole.roleId ur =? rid) (userRoles (tables db)) with
  | None => None
  | Some ur => Some (ur, find_user db (UserRole.userId ur))
  end.

(** That query; the role identity is a value read from the store. *)
Definition user_role_with_user (rid : Z)
  : Tx (option (UserRole.t * option User.t)) :=
  _ <- with_relation Schema.userRoles_user ;;
  query (first_user_role rid).

(** [eligibleAssignment?.user] *)
Definition user_of (r : option (UserRole.t * option User.t)) : option User.t :=
  match r with
  | Some (_, u) => u
  | None => None
  end.

Definition startWorkflow (now : Timestamp) (input : StartInput.t)
  : Tx Instance.t :=
  transaction (
    template <- template_with_entry_step (StartInput.templateId input) ;;
    match template with
    | None => throw TemplateNotFoundOrNoSteps
    | Some (template, steps) =>
        if (Z.of_nat (List.length steps) =? 0) then throw TemplateNotFoundOrNoSteps
        else
          match nth_error steps 0 with
          | None => throw TemplateHasNoFirstStep
          | Some firstStep =>
              eligibleAssignment <-
                user_role_with_user (Step.roleId firstStep) ;;
              match user_of eligibleAssignment with
              | None => throw NoEligibleUsers
              | Some user =>
                  rows <- insert_instance now (Template.id template)
                            (Step.id firstStep) (Some (User.id user))
                            (StartInput.entityType input)
                            (StartInput.entityId input) Instance.ACTIVE ;;
                  match rows with
                  | [] => throw InstanceNotCreated
                  | instance :: _ =>
                      _ <- insert_assignment now (Instance.id instance)
                             (Step.id firstStep) (User.id user)
                             Assignment.PENDING ;;
                      ret instance
                  end
              end
          end
    end).

(** ** What [startWorkflow] leaves in the store when it succeeds *)

Definition started_instance (now : Timestamp) (input : StartInput.t)
    (t : Template.t) (s : Step.t) (u : User.t) (db : DB) : Instance.t :=
  Instance.mk (instances_seq (seqs db)) (Template.id t) (Step.id s)
    (Some (User.id u)) (clip 50 (StartInput.entityType input))
    (StartInput.entityId input) Instance.ACTIVE now None.

Definition first_assignment (now : Timestamp) (i : Instance.t) (s : Step.t)
    (u : User.t) (db : DB) : Assignment.t :=
  Assignment.mk (assignments_seq (seqs db)) (Instance.id i) (Step.id s)
    (User.id u) Assignment.PENDING now None.

Definition started (now : Timestamp) (input : StartInput.t)
    (t : Template.t) (s : Step.t) (u : User.t) (db : DB) : DB :=
  let i := started_instance now input t s u db in
  set_assignments
    (workflowStepAssignments (tables db) ++ [first_assignment now i s u db])
    (set_seqs (bump_assignments 1 (bump_instances 1 (seqs db)))
       (set_instances (workflowInstances (tables db) ++ [i]) db)).

(** The step is a step of order 1 of the template. *)
Definition is_entry_step (tid : Z) (s : Step.t) : bool :=
  (Step.workflowTemplateId s =? tid) && (Step.stepOrder s =? 1).

(** The step of order 1 the query hands back: the first in the table. *)
Definition entry_step (db : DB) (tid : Z) : option Step.t :=
  find (is_entry_step tid) (workflowSteps (tables db)).

(** ** [getAssignedWorkflows] *)

Module AssignedRow.
Record t := mk {
  instance : Instance.t;
  template : option Template.t;
  currentStep : option Step.t;
  currentAssignee : option User.t }.
End AssignedRow.

(** [and(eq(currentAssigneeId, userId), status ? eq(status, status) :
    undefined)] *)
Definition assigned_to (input : AssignedInput.t) (i : Instance.t) : bool :=
  match Instance.currentAssigneeId i with
  | Some u => String.eqb u (AssignedInput.userId input)
  | None => false
  end
  && match AssignedInput.status input with
     | Some s => Instance.status_eqb (Instance.status i) s
     | None => true
     end.

(** [with: { template: true, currentStep: true, currentAssignee: true }] *)
Definition with_relations (db : DB) (i : Instance.t) : AssignedRow.t :=
  AssignedRow.mk i
    (find_template db (Instance.workflowTemplateId i))
    (find_step db (Instance.currentStepId i))
    (match Instance.currentAssigneeId i with
     | Some u => find_user db u
     | None => None
     end).

(** The three relations are resolved, the user identity is bound to a
    text parameter and the rows are read.  Rows of equal creation time are
    kept in table order (the store leaves their order open). *)
Definition getAssignedWorkflows (input : AssignedInput.t)
  : Tx (list AssignedRow.t) :=
  _ <- with_relation Schema.workflowInstances_template ;;
  _ <- with_relation Schema.workflowInstances_currentStep ;;
  _ <- with_relation Schema.workflowInstances_currentAssignee ;;
  _ <- bind_values
         [refuse_text "workflow_instances.current_assignee_id"
            (AssignedInput.userId input)] ;;
  query (fun db =>
    map (with_relations db)
      (sort_by Instance.createdAt
         (filter (assigned_to input) (workflowInstances (tables db))))).

(** ** [takeAction] *)

Module LoadedStep.
Record t := mk { step : Step.t; fromTransitions : list Transition.t }.
End LoadedStep.

Module LoadedInstance.
Record t := mk { instance : Instance.t; currentStep : option LoadedStep.t }.
End LoadedInstance.

(** The integer columns of the two tables a relation between steps and
    transitions can join. *)
Definition step_column (c : string) (s : Step.t) : option Z :=
  if String.eqb c "id" then Some (Step.id s)
  else if String.eqb c "workflow_template_id"
       then Some (Step.workflowTemplateId s)
  else if String.eqb c "role_id" then Some (Step.roleId s)
  else if String.eqb c "rejection_step_id" then Step.rejectionStepId s
  else None.

Definition transition_column (c : string) (t : Transition.t) : option Z :=
  if String.eqb c "id" then Some (Transition.id t)
  else if String.eqb c "from_step_id" then Some (Transition.fromStepId t)
  else if String.eqb c "to_step_id" then Some (Transition.toStepId t)
  else None.

(** The transitions a relation of a step yields, given the columns that
    join the two tables. *)
Definition related_transitions (join : string * string) (db : DB)
    (s : Step.t) : list Transition.t :=
  filter (fun t =>
            match step_column (fst join) s, transition_column (snd join) t with
            | Some a, Some b => a =? b
            | _, _ => false
            end)
    (workflowStepTransitions (tables db)).

(** [findFirst] on [workflowInstances] with
    [currentStep: { with: { fromTransitions: true } }]: the two relations
    are resolved, the identity is bound to an [integer] parameter and the
    rows are read. *)
Definition instance_with_current_step (iid : Z)
  : Tx (option LoadedInstance.t) :=
  _ <- with_relation Schema.workflowInstances_currentStep ;;
  join <- with_relation Schema.workflowSteps_fromTransitions ;;
  _ <- bind_values [refuse_integer "workflow_instances.id" iid] ;;
  query (fun db =>
    match find_instance db iid with
    | None => None
    | Some i =>
        Some (LoadedInstance.mk i
                (match find_step db (Instance.currentStepId i) with
                 | None => None
                 | Some s =>
                     Some (LoadedStep.mk s (related_transitions join db s))
                 end))
    end).

(** [instance.currentAssigneeId !== input.userId], negated. *)
Definition is_assignee (a : option string) (u : string) : bool :=
  match a with
  | Some x => String.eqb x u
  | None => false
  end.

(** [instance.currentStep?.rejectionStepId] where the source tests it for
    truth: absent when there is no step, no value, or the value 0. *)
Definition truthy_rejectionStepId (cs : option LoadedStep.t) : option Z :=
  match cs with
  | None => None
  | Some s =>
      match Step.rejectionStepId (LoadedStep.step s) with
      | None => None
      | Some target => if target =? 0 then None else Some target
      end
  end.

(** [instance.currentStep?.fromTransitions || []] *)
Definition fromTransitions_or_empty (cs : option LoadedStep.t)
  : list Transition.t :=
  match cs with
  | None => []
  | Some s => LoadedStep.fromTransitions s
  end.

Definition is_REJECT (a : ActionType) : bool :=
  match a with REJECT => true | _ => false end.

Definition is_APPROVE (a : ActionType) : bool :=
  match a with APPROVE => true | _ => false end.

(** The body of the procedure, with the two functions it calls as
    parameters.  It answers with the instance row. *)
Definition takeActionWith
    (handleRejection : Instance.t -> Z -> Tx Instance.t)
    (handleApproval : Instance.t -> list Transition.t -> Tx Instance.t)
    (now : Timestamp) (input : ActionInput.t) : Tx Instance.t :=
  transaction (
    loaded <- instance_with_current_step (ActionInput.instanceId input) ;;
    match loaded with
    | None => throw WorkflowInstanceNotFound
    | Some loaded =>
        let instance := LoadedInstance.instance loaded in
        if negb (is_assignee (Instance.currentAssigneeId instance)
                   (ActionInput.userId input))
        then throw NotAuthorized
        else
          action <- insert_action now (Instance.id instance)
                      (Instance.currentStepId instance)
                      (ActionInput.userId input)
                      (ActionInput.actionType input)
                      (ActionInput.comments input)
                      (ActionInput.dataModifications input) ;;
          match
            (if is_REJECT (ActionInput.actionType input)
             then truthy_rejectionStepId (LoadedInstance.currentStep loaded)
             else None)
          with
          | Some rejectionStepId =>
              handleRejection instance rejectionStepId
          | None =>
              if is_APPROVE (ActionInput.actionType input)
              then handleApproval instance
                     (fromTransitions_or_empty
                        (LoadedInstance.currentStep loaded))
              else ret instance
          end
    end).

(** [handleRejection] and [handleApproval] are not defined in
    [workflow.ts] and not among its imports: evaluating either name
    throws. *)
Definition handleRejection (instance : Instance.t) (rejectionStepId : Z)
  : Tx Instance.t :=
  throw (ReferenceError "handleRejection").

Definition handleApproval (instance : Instance.t)
    (transitions : list Transition.t) : Tx Instance.t :=
  throw (ReferenceError "handleApproval").

Definition takeAction (now : Timestamp) (input : ActionInput.t)
  : Tx Instance.t :=
  takeActionWith handleRejection handleApproval now input.

(** ** Calls and their effect on the store *)

Inductive Call : Type :=
| CreateWorkflowTemplate (now date : Timestamp) (input : CreateInput.t)
| StartWorkflow (now : Timestamp) (input : StartInput.t)
| TakeAction (now : Timestamp) (input : ActionInput.t)
| GetAssignedWorkflows (input : AssignedInput.t).

Definition run (c : Call) (db : DB) : DB :=
  match c with
  | CreateWorkflowTemplate now date input =>
      snd (createWorkflowTemplate now date input db)
  | StartWorkflow now input => snd (startWorkflow now input db)
  | TakeAction now input => snd (takeAction now input db)
  | GetAssignedWorkflows input => snd (getAssignedWorkflows input db)
  end.


(** The transitions that leave a step. *)
Definition leaving (db : DB) (s : Step.t) : list Transition.t :=
  filter (fun t => Transition.fromStepId t =? Step.id s)
    (workflowStepTransitions (tables db)).


(** ** Reading back what [createWorkflowTemplate] stored *)

(** The supplied part of a step row. *)
Definition step_values (s : Step.t) : NewStep.t :=
  NewStep.mk (Step.name s) (Step.stepOrder s) (Step.roleId s)
    (Step.isMandatory s) (Step.canModify s) (Step.rejectionStepId s).

(** The values of a step as the store keeps them. *)
Definition stored_step (v : NewStep.t) : NewStep.t :=
  NewStep.mk (clip 255 (NewStep.name v)) (NewStep.stepOrder v)
    (NewStep.roleId v) (NewStep.isMandatory v) (NewStep.canModify v)
    (NewStep.rejectionStepId v).



(** The reference of a step to its template holds for every step. *)
Definition steps_belong (db : DB) : Prop :=
  Forall (fun s => template_exists (Step.workflowTemplateId s) db = true)
    (workflowSteps (tables db)).

(** The store with the active flag of every template set by [flag]. *)
Definition with_activity (flag : Template.t -> bool) (db : DB) : DB :=
  set_templates
    (map (fun t =>
            Template.mk (Template.id t) (Template.name t)
              (Template.description t) (flag t) (Template.createdAt t))
       (workflowTemplates (tables db)))
    db.

(** ** Primary keys

    The identity columns of the schema: the keys of a table are pairwise
    different and below the next value of its sequence. *)

Definition fresh_keys {A} (id : A -> Z) (rows : list A) (next : Z) : Prop :=
  NoDup (map id rows) /\ Forall (fun r => id r < next) rows.

Definition keyed (db : DB) : Prop :=
  fresh_keys Template.id (workflowTemplates (tables db))
    (templates_seq (seqs db))
  /\ fresh_keys Step.id (workflowSteps (tables db)) (steps_seq (seqs db))
  /\ fresh_keys Transition.id (workflowStepTransitions (tables db))
       (transitions_seq (seqs db))
  /\ fresh_keys Instance.id (workflowInstances (tables db))
       (instances_seq (seqs db))
  /\ fresh_keys Assignment.id (workflowStepAssignments (tables db))
       (assignments_seq (seqs db))
  /\ fresh_keys Action.id (workflowActions (tables db))
       (actions_seq (seqs db)).

(** Sequences only move forward. *)
Definition seqs_le (a b : Sequences) : Prop :=
  templates_seq a <= templates_seq b
  /\ steps_seq a <= steps_seq b
  /\ transitions_seq a <= transitions_seq b
  /\ instances_seq a <= instances_seq b
  /\ assignments_seq a <= assignments_seq b
  /\ actions_seq a <= actions_seq b.

(** A computation that keeps the keys of a keyed store. *)
Definition keeps_keys {A} (m : Tx A) : Prop :=
  forall db r db',
    keyed db -> m db = (r, db') -> keyed db' /\ seqs_le (seqs db) (seqs db').

(** ** A small store for the examples

    Template 1 has step 1 (order 1, role 1, no rejection target, no
    modification allowed), step 2 (order 2, role 2, rejection target
    step 1) and step 3 (order 3, role 3), and two transitions leaving
    step 1, stored with the higher identity first.  Template 2 has the
    single step 4 (order 1, role 3).  Template 3 has the single step 5
    (order 1, role 2, modification allowed, rejection target step 1).
    Role 3 has no holder. *)

Definition ex_u1 : User.t := User.mk "u1" "Ada".
Definition ex_u2 : User.t := User.mk "u2" "Bob".

Definition ex_t1 : Template.t :=
  Template.mk 1 "expense" (Some "expense approval") true 0.
Definition ex_t2 : Template.t := Template.mk 2 "inspection" None true 0.
Definition ex_t3 : Template.t := Template.mk 3 "refund" None true 0.

Definition ex_s1 : Step.t := Step.mk 1 1 "submit" 1 1 true false None 0.
Definition ex_s2 : Step.t := Step.mk 2 1 "review" 2 2 true true (Some 1) 0.
Definition ex_s3 : Step.t := Step.mk 3 1 "audit" 3 3 true false None 0.
Definition ex_s4 : Step.t := Step.mk 4 2 "inspect" 1 3 true false None 0.
Definition ex_s5 : Step.t := Step.mk 5 3 "request" 1 2 true true (Some 1) 0.

(** Instances 1, 4 and 5 are as [startWorkflow] leaves them: active, at
    the entry step of their template, assigned to the holder of its role.
    Instances 2 and 3 are closed, rejected and completed, without
    assignee. *)
Definition ex_i1 : Instance.t :=
  Instance.mk 1 1 1 (Some "u1") "invoice" 42 Instance.ACTIVE 10 None.
Definition ex_i2 : Instance.t :=
  Instance.mk 2 1 2 None "invoice" 43 Instance.REJECTED 5 (Some 8).
Definition ex_i3 : Instance.t :=
  Instance.mk 3 1 2 None "invoice" 44 Instance.COMPLETED 6 (Some 9).
Definition ex_i4 : Instance.t :=
  Instance.mk 4 1 1 (Some "u1") "invoice" 45 Instance.ACTIVE 7 None.
Definition ex_i5 : Instance.t :=
  Instance.mk 5 3 5 (Some "u2") "order" 46 Instance.ACTIVE 11 None.

Definition ex_tables : Tables :=
  mkTables
    [ex_u1; ex_u2]
    [Role.mk 1 "clerk" None 0; Role.mk 2 "manager" None 0;
     Role.mk 3 "auditor" None 0]
    [UserRole.mk "u1" 1 true 0; UserRole.mk "u2" 2 true 0]
    [ex_t1; ex_t2; ex_t3]
    [ex_s1; ex_s2; ex_s3; ex_s4; ex_s5]
    [Transition.mk 2 1 3 None None 0;
     Transition.mk 1 1 2 None None 0]
    [ex_i1; ex_i2; ex_i3; ex_i4; ex_i5]
    [Assignment.mk 1 1 1 "u1" Assignment.PENDING 10 None;
     Assignment.mk 2 4 1 "u1" Assignment.PENDING 7 None;
     Assignment.mk 3 5 5 "u2" Assignment.PENDING 11 None]
    [Action.mk 1 2 2 "u2" REJECT None None 8;
     Action.mk 2 3 2 "u2" APPROVE None None 9].

Definition ex_db : DB := mkDB ex_tables (mkSequences 4 6 3 6 4 3).

(** Requests against that store. *)
Definition ex_approve : ActionInput.t :=
  ActionInput.mk 1 "u1" APPROVE None None.
Definition ex_reject : ActionInput.t :=
  ActionInput.mk 1 "u1" REJECT (Some "incomplete") None.
Definition ex_reject_to_target : ActionInput.t :=
  ActionInput.mk 5 "u2" REJECT None None.
Definition ex_modify : ActionInput.t :=
  ActionInput.mk 1 "u1" MODIFY None (Some (JObj [("amount", JNum 7)])).
Definition ex_intruder : ActionInput.t :=
  ActionInput.mk 1 "u2" APPROVE None None.
Definition ex_start : StartInput.t := StartInput.mk 1 "invoice" 50.
Definition ex_start_missing : StartInput.t := StartInput.mk 9 "invoice" 50.
Definition ex_start_no_holder : StartInput.t := StartInput.mk 2 "site" 51.

(** Requests with a number outside the 32-bit range: for a template, and
    for the entity of a template that could be started. *)
Definition ex_start_out_of_range : StartInput.t :=
  StartInput.mk 2147483648 "invoice" 50.
Definition ex_start_entity_out_of_range : StartInput.t :=
  StartInput.mk 1 "invoice" 2147483648.

(** A template request with two steps of the same order, a rejection
    target that is no step at all, and a transition between steps 1 and 2
    of template 1, which are not the steps being created. *)
Definition ex_create : CreateInput.t :=
  CreateInput.mk "travel" "travel approval"
    [NewStep.mk "first" 1 1 true false (Some 99);
     NewStep.mk "second" 1 2 true false None]
    [NewTransition.mk 1 2 None None].

(** A request whose step names a role that does not exist. *)
Definition ex_create_no_role : CreateInput.t :=
  CreateInput.mk "travel" "travel approval"
    [NewStep.mk "first" 1 7 true false None] [].

(** The first request without steps. *)
Definition ex_create_no_steps : CreateInput.t :=
  CreateInput.mk "travel" "travel approval" []
    [NewTransition.mk 1 2 None None].

(** A name of 256 characters, and a request without steps under it. *)
Definition ex_long_name : string :=
  string_of_list_ascii (repeat "a"%char 256).
Definition ex_create_long_name : CreateInput.t :=
  CreateInput.mk ex_long_name "travel approval" []
    [NewTransition.mk 1 2 None None].

(** A name of 255 characters followed by a blank, and a request without
    steps under it. *)
Definition ex_padded_name : string :=
  string_of_list_ascii (repeat "a"%char 255 ++ [" "%char]).
Definition ex_create_padded : CreateInput.t :=
  CreateInput.mk ex_padded_name "travel approval" [] [].

(** A template request whose transition joins the two steps it creates
    (the store hands out the step identities 6 and 7 next), and two
    functions that could stand for the ones [takeAction] calls: one that
    answers with the instance and one that throws. *)
Definition ex_create_linked : CreateInput.t :=
  CreateInput.mk "leave" "leave approval"
    [NewStep.mk "ask" 1 1 true false None;
     NewStep.mk "grant" 2 2 true false (Some 6)]
    [NewTransition.mk 6 7 None None].
Definition ex_assigned : AssignedInput.t :=
  AssignedInput.mk "u1" (Some Instance.ACTIVE).

(** A request for the work of a user whose identity holds a NUL
    character. *)
Definition ex_assigned_nul : AssignedInput.t :=
  AssignedInput.mk (String Ascii.zero "u1") None.

(** * Properties *)

(** ** The store and the transaction monad *)

Lemma db_eta (db : DB) : mkDB (tables db) (seqs db) = db.
Proof. destruct db; reflexivity. Qed.

Lemma is_assignee_true (a : option string) (u : string) :
  is_assignee a u = true <-> a = Some u.
Proof.
  destruct a as [x|]; simpl.
  - rewrite String.eqb_eq. split; congruence.
  - split; discriminate.
Qed.

Lemma find_template_id db tid t :
  find_template db tid = Some t -> Template.id t = tid.
Proof.
  unfold find_template. intros H. apply find_some in H.
  destruct H as [_ H]. now apply Z.eqb_eq.
Qed.

Lemma find_user_id db uid u : find_user db uid = Some u -> User.id u = uid.
Proof.
  unfold find_user. intros H. apply find_some in H.
  destruct H as [_ H]. now apply String.eqb_eq.
Qed.

(** A row found before an append is found after it. *)
Lemma find_app_some {A} (p : A -> bool) (l l' : list A) (x : A) :
  find p l = Some x -> find p (l ++ l') = Some x.
Proof.
  induction l as [|y l IH]; simpl; [discriminate|].
  destruct (p y); auto.
Qed.

Lemma find_app_none {A} (p : A -> bool) (l l' : list A) :
  find p l = None -> find p (l ++ l') = find p l'.
Proof.
  induction l as [|y l IH]; simpl; [reflexivity|].
  destruct (p y); [discriminate | auto].
Qed.

(** ** Sorting *)

Section SortByFacts.
Context {A : Type} (key : A -> Z).

Lemma insert_by_perm (x : A) (l : list A) :
  Permutation (insert_by key x l) (x :: l).
Proof.
  induction l as [|y l IH]; simpl; [reflexivity|].
  destruct (key x <=? key y); [reflexivity|].
  rewrite IH. apply perm_swap.
Qed.

Lemma sort_by_perm (l : list A) : Permutation (sort_by key l) l.
Proof.
  induction l as [|x l IH]; simpl; [reflexivity|].
  rewrite insert_by_perm. now constructor.
Qed.

Lemma insert_by_sorted (x : A) (l : list A) :
  StronglySorted (key_le key) l -> StronglySorted (key_le key) (insert_by key x l).
Proof.
  induction 1 as [|y l Hs IH Hy]; simpl.
  - repeat constructor.
  - destruct (key x <=? key y) eqn:E.
    + apply Z.leb_le in E. constructor.
      * now constructor.
      * constructor; [exact E|].
        eapply Forall_impl; [|exact Hy].
        unfold key_le. intros; lia.
    + apply Z.leb_gt in E. constructor; [exact IH|].
      eapply Permutation_Forall.
      * symmetry. apply insert_by_perm.
      * constructor; [unfold key_le; lia | exact Hy].
Qed.

Lemma sort_by_sorted (l : list A) : StronglySorted (key_le key) (sort_by key l).
Proof.
  induction l as [|x l IH]; simpl.
  - constructor.
  - now apply insert_by_sorted.
Qed.

End SortByFacts.

(** ** What the store refuses *)

Lemma bind_values_run checks db :
  bind_values checks db =
  match first_refusal checks with
  | Some e => (Err e, db)
  | None => (Ok tt, db)
  end.
Proof. unfold bind_values. destruct (first_refusal checks); reflexivity. Qed.

Arguments bind_values : simpl never.

Lemma first_refusal_app a b :
  first_refusal (a ++ b) =
  match first_refusal a with
  | Some e => Some e
  | None => first_refusal b
  end.
Proof.
  induction a as [|[e|] a IH]; cbn; [reflexivity | reflexivity | exact IH].
Qed.

(** Every refusal is an error of the store. *)
Lemma first_refusal_store checks e :
  Forall (fun c => forall e', c = Some e' -> store_refusal e' = true) checks ->
  first_refusal checks = Some e -> store_refusal e = true.
Proof.
  induction 1 as [|[e'|] checks Hc _ IH]; cbn; [discriminate | |exact IH].
  intros [= <-]. now apply Hc.
Qed.

Lemma refuse_integer_store c z e :
  refuse_integer c z = Some e -> store_refusal e = true.
Proof. unfold refuse_integer. destruct (is_int4 z); now intros [= <-]. Qed.

Lemma refuse_text_store c s e :
  refuse_text c s = Some e -> store_refusal e = true.
Proof. unfold refuse_text. destruct (text_ok s); now intros [= <-]. Qed.

Lemma refuse_length_store n c s e :
  refuse_length n c s = Some e -> store_refusal e = true.
Proof. unfold refuse_length. destruct (length_ok n s); now intros [= <-]. Qed.

Lemma refuse_jsonb_store c j e :
  refuse_jsonb c j = Some e -> store_refusal e = true.
Proof. unfold refuse_jsonb. destruct (json_ok j); now intros [= <-]. Qed.

Lemma optionally_store {A} (refuse : A -> option Error) v e :
  (forall a e', refuse a = Some e' -> store_refusal e' = true) ->
  optionally refuse v = Some e -> store_refusal e = true.
Proof. intros H. destruct v as [a|]; cbn; [apply H | discriminate]. Qed.

Ltac store_checks :=
  repeat (constructor;
          [intros ? ?;
           first [ eapply refuse_integer_store; eassumption
                 | eapply refuse_text_store; eassumption
                 | eapply refuse_length_store; eassumption
                 | eapply refuse_jsonb_store; eassumption
                 | eapply optionally_store; [|eassumption];
                   intros ? ? ?;
                   first [ eapply refuse_integer_store; eassumption
                         | eapply refuse_text_store; eassumption
                         | eapply refuse_length_store; eassumption
                         | eapply refuse_jsonb_store; eassumption ] ]|]);
  try constructor.

Lemma template_refusals_store name description e :
  first_refusal (template_refusals name description) = Some e ->
  store_refusal e = true.
Proof. apply first_refusal_store. unfold template_refusals. store_checks. Qed.

Lemma step_refusals_store v e :
  first_refusal (step_refusals v) = Some e -> store_refusal e = true.
Proof. apply first_refusal_store. unfold step_refusals. store_checks. Qed.

Lemma instance_refusals_store a et ei e :
  first_refusal (instance_refusals a et ei) = Some e ->
  store_refusal e = true.
Proof. apply first_refusal_store. unfold instance_refusals. store_checks. Qed.

Lemma transition_refusals_store vs e :
  first_refusal (flat_map transition_refusals vs) = Some e ->
  store_refusal e = true.
Proof.
  apply first_refusal_store. induction vs as [|v vs IH]; cbn [flat_map].
  - constructor.
  - apply Forall_app. split; [|exact IH].
    unfold transition_refusals. store_checks.
Qed.

(** The checks pass exactly on the values that fit. *)
Lemma template_refusals_fits name description :
  first_refusal (template_refusals name description) = None <->
  template_fits name description = true.
Proof.
  unfold template_refusals, template_fits, varchar_ok, refuse_text,
    refuse_length.
  destruct (text_ok name), (text_ok description), (length_ok 255 name);
    cbn [first_refusal andb]; split; intros H; try discriminate; reflexivity.
Qed.

Lemma step_refusals_fits v :
  first_refusal (step_refusals v) = None <-> step_fits v = true.
Proof.
  unfold step_refusals, step_fits, varchar_ok, refuse_text, refuse_length,
    refuse_integer, optionally, is_null_or.
  destruct (text_ok (NewStep.name v)), (length_ok 255 (NewStep.name v)),
    (is_int4 (NewStep.stepOrder v)), (is_int4 (NewStep.roleId v)),
    (NewStep.rejectionStepId v) as [k|]; try destruct (is_int4 k);
    cbn [first_refusal andb]; split; intros H; try discriminate; reflexivity.
Qed.

Lemma transition_refusals_fits v :
  first_refusal (transition_refusals v) = None <-> transition_fits v = true.
Proof.
  unfold transition_refusals, transition_fits, varchar_ok, refuse_text,
    refuse_length, refuse_integer, refuse_jsonb, optionally, is_null_or.
  destruct (is_int4 (NewTransition.fromStepId v)),
    (is_int4 (NewTransition.toStepId v)),
    (NewTransition.conditionType v) as [c|],
    (NewTransition.conditionValue v) as [j|];
    try destruct (text_ok c); try destruct (length_ok 50 c);
    try destruct (json_ok j);
    cbn [first_refusal andb]; split; intros H; try discriminate; reflexivity.
Qed.

Lemma transitions_refusals_fits vs :
  first_refusal (flat_map transition_refusals vs) = None <->
  forallb transition_fits vs = true.
Proof.
  induction vs as [|v vs IH]; cbn [flat_map forallb]; [now split|].
  rewrite first_refusal_app, andb_true_iff, <- IH, <- transition_refusals_fits.
  destruct (first_refusal (transition_refusals v)); split;
    try tauto; try discriminate.
Qed.

Lemma instance_refusals_fits a et ei :
  first_refusal (instance_refusals a et ei) = None <->
  instance_fits a et ei = true.
Proof.
  unfold instance_refusals, instance_fits, varchar_ok, refuse_text,
    refuse_length, refuse_integer, optionally, is_null_or.
  destruct a as [u|]; try destruct (text_ok u);
    destruct (text_ok et), (length_ok 50 et), (is_int4 ei);
    cbn [first_refusal andb]; split; intros H; try discriminate; reflexivity.
Qed.

Lemma not_true_none (o : option Error) (b : bool) :
  (o = None <-> b = true) -> b = false -> exists e, o = Some e.
Proof.
  intros H Hb. destruct o as [e|]; [eauto|].
  rewrite (proj1 H eq_refl) in Hb. discriminate.
Qed.

(** ** Relations that resolve, and the one that does not *)

Lemma with_relation_steps :
  with_relation Schema.workflowTemplates_steps =
  ret ("id", "workflow_template_id").
Proof. reflexivity. Qed.

Lemma with_relation_currentStep :
  with_relation Schema.workflowInstances_currentStep =
  ret ("current_step_id", "id").
Proof. reflexivity. Qed.

Lemma with_relation_fromTransitions :
  with_relation Schema.workflowSteps_fromTransitions =
  throw (RelationNotInferred "workflowSteps.fromTransitions").
Proof. reflexivity. Qed.

Arguments with_relation : simpl never.

(** ** Inserts whose references are present *)

Arguments insert_action : simpl never.
Arguments insert_assignment : simpl never.
Arguments insert_instance : simpl never.

Ltac run_tx :=
  unfold transaction, bind, query, ret, throw, references, nextval; cbn.

Lemma insert_assignment_ok now iid sid uid st db :
  text_ok uid = true ->
  instance_exists iid db = true -> step_exists sid db = true ->
  user_exists uid db = true ->
  insert_assignment now iid sid uid st db =
  (let row := Assignment.mk (assignments_seq (seqs db)) iid sid uid st now None in
   (Ok tt,
    set_assignments (workflowStepAssignments (tables db) ++ [row])
      (set_seqs (bump_assignments 1 (seqs db)) db))).
Proof.
  intros Htext. unfold insert_assignment. unfold bind at 1.
  rewrite bind_values_run. cbn [first_refusal]. unfold refuse_text.
  rewrite Htext.
  unfold next_assignment_id, instance_exists, step_exists,
    user_exists, find_instance, find_step, find_user.
  intros Hi Hs Hu. run_tx. rewrite Hi; cbn. rewrite Hs; cbn. rewrite Hu.
  reflexivity.
Qed.

Lemma insert_instance_refused now tid sid a et ei st db e :
  first_refusal (instance_refusals a et ei) = Some e ->
  insert_instance now tid sid a et ei st db = (Err e, db).
Proof.
  intros H. unfold insert_instance. unfold bind at 1.
  rewrite bind_values_run, H. reflexivity.
Qed.

Lemma insert_instance_ok now tid sid uid et ei st db :
  first_refusal (instance_refusals (Some uid) et ei) = None ->
  template_exists tid db = true -> step_exists sid db = true ->
  user_exists uid db = true ->
  insert_instance now tid sid (Some uid) et ei st db =
  (let row := Instance.mk (instances_seq (seqs db)) tid sid (Some uid)
                (clip 50 et) ei st now None in
   (Ok [row],
    set_instances (workflowInstances (tables db) ++ [row])
      (set_seqs (bump_instances 1 (seqs db)) db))).
Proof.
  intros Hf. unfold insert_instance. unfold bind at 1.
  rewrite bind_values_run, Hf.
  unfold next_instance_id, template_exists, step_exists,
    user_exists, find_template, find_step, find_user.
  intros Ht Hs Hu. run_tx. rewrite Ht; cbn. rewrite Hs; cbn. rewrite Hu.
  reflexivity.
Qed.

Lemma forallb_andb {A} (f g : A -> bool) (l : list A) :
  forallb (fun x => f x && g x) l = forallb f l && forallb g l.
Proof.
  induction l as [|x l IH]; cbn; [reflexivity|].
  rewrite IH. destruct (f x), (g x), (forallb f l); reflexivity.
Qed.


(** ** [createWorkflowTemplate] *)

Arguments insert_step : simpl never.

Lemma insert_template_run now name description db :
  insert_template now name description db =
  match first_refusal (template_refusals name description) with
  | Some e => (Err e, db)
  | None =>
      let row :=
        Template.mk (templates_seq (seqs db)) (clip 255 name)
          (Some description) true now in
      (Ok [row],
       set_templates (workflowTemplates (tables db) ++ [row])
         (set_seqs (bump_templates 1 (seqs db)) db))
  end.
Proof.
  unfold insert_template. unfold bind at 1. rewrite bind_values_run.
  destruct (first_refusal _); reflexivity.
Qed.

Lemma insert_step_run now tid v db :
  template_exists tid db = true ->
  insert_step now tid v db =
  match first_refusal (step_refusals v) with
  | Some e => (Err e, db)
  | None =>
      if role_exists (NewStep.roleId v) db
      then (Ok (step_rows now tid (steps_seq (seqs db)) [v]),
            set_steps
              (workflowSteps (tables db)
               ++ step_rows now tid (steps_seq (seqs db)) [v])
              (set_seqs (bump_steps 1 (seqs db)) db))
      else (Err (ForeignKeyViolation "workflow_steps.role_id"),
            set_seqs (bump_steps 1 (seqs db)) db)
  end.
Proof.
  intros Ht. unfold insert_step. unfold bind at 1. rewrite bind_values_run.
  destruct (first_refusal _); [reflexivity|].
  unfold next_step_id, template_exists, role_exists, find_template, find_role
    in *.
  run_tx. rewrite Ht; cbn.
  destruct (is_some (find _ (roles (tables db)))); reflexivity.
Qed.

Lemma mapM_cons_run {A B} (f : A -> Tx B) (x : A) (xs : list A) (db : DB) :
  mapM f (x :: xs) db =
  match f x db with
  | (Ok y, db1) =>
      match mapM f xs db1 with
      | (Ok ys, db2) => (Ok (y :: ys), db2)
      | (Err e, db2) => (Err e, db2)
      end
  | (Err e, db1) => (Err e, db1)
  end.
Proof. reflexivity. Qed.

(** The steps go in one after the other; the first one the store refuses
    or whose role is missing stops the call. *)
Lemma mapM_insert_step_run now tid vs db :
  template_exists tid db = true ->
  (forallb (fun v => step_fits v && role_exists (NewStep.roleId v) db) vs
   = true
   /\ exists rs,
        List.length rs = List.length vs
        /\ mapM (fun step =>
                   returned <- insert_step now tid step ;;
                   ret (hd_error returned)) vs db =
           (Ok rs,
            set_steps
              (workflowSteps (tables db)
               ++ step_rows now tid (steps_seq (seqs db)) vs)
              (set_seqs (bump_steps (Z.of_nat (List.length vs)) (seqs db))
                 db)))
  \/ (forallb (fun v => step_fits v && role_exists (NewStep.roleId v) db) vs
      = false
      /\ exists e db',
           mapM (fun step =>
                   returned <- insert_step now tid step ;;
                   ret (hd_error returned)) vs db =
           (Err e, db')
           /\ store_refusal e = true
           /\ (forallb step_fits vs = true ->
               e = ForeignKeyViolation "workflow_steps.role_id")).
Proof.
  set (f := fun step => returned <- insert_step now tid step ;;
                        ret (hd_error returned)).
  revert db. induction vs as [|v vs IH]; intros db Ht.
  - left. split; [reflexivity|]. exists []. split; [reflexivity|].
    unfold mapM, ret, bump_steps. cbn. rewrite app_nil_r, Z.add_0_r.
    destruct db as [[] []]; reflexivity.
  - rewrite mapM_cons_run.
    assert (Hf : f v db =
                 match first_refusal (step_refusals v) with
                 | Some e => (Err e, db)
                 | None =>
                     if role_exists (NewStep.roleId v) db
                     then (Ok (hd_error
                                 (step_rows now tid (steps_seq (seqs db)) [v])),
                           set_steps
                             (workflowSteps (tables db)
                              ++ step_rows now tid (steps_seq (seqs db)) [v])
                             (set_seqs (bump_steps 1 (seqs db)) db))
                     else (Err (ForeignKeyViolation "workflow_steps.role_id"),
                           set_seqs (bump_steps 1 (seqs db)) db)
                 end).
    { unfold f, bind, ret. rewrite (insert_step_run _ _ _ _ Ht).
      destruct (first_refusal _); [reflexivity|].
      destruct (role_exists _ db); reflexivity. }
    rewrite Hf. cbn [forallb].
    destruct (first_refusal (step_refusals v)) as [e|] eqn:Hv.
    { right. split.
      - destruct (step_fits v) eqn:Hfit; [|reflexivity].
        apply step_refusals_fits in Hfit. congruence.
      - exists e, db. split; [reflexivity|].
        split; [eapply step_refusals_store; eassumption|].
        intros Hall. apply andb_true_iff in Hall. destruct Hall as [Hfit _].
        apply step_refusals_fits in Hfit. congruence. }
    apply step_refusals_fits in Hv. rewrite Hv. cbn [andb].
    destruct (role_exists (NewStep.roleId v) db) eqn:Hr; cbn [andb].
    + match goal with
      | |- context [mapM f vs ?d] => specialize (IH d); set (db1 := d) in *
      end.
      assert (Ht1 : template_exists tid db1 = true) by exact Ht.
      change (forallb (fun v0 => step_fits v0
                                 && role_exists (NewStep.roleId v0) db1) vs)
        with (forallb (fun v0 => step_fits v0
                                 && role_exists (NewStep.roleId v0) db) vs)
        in IH.
      destruct (IH Ht1)
        as [[Hp (rs & Hlen & Hrun)] | [Hp (e & db' & Hrun & He & Hfk)]].
      * left. split; [exact Hp|].
        exists (hd_error (step_rows now tid (steps_seq (seqs db)) [v]) :: rs).
        split; [simpl; now rewrite Hlen|].
        rewrite Hrun. f_equal.
        subst db1. cbn. rewrite <- app_assoc. cbn.
        unfold bump_steps; cbn.
        do 2 f_equal. lia.
      * right. split; [exact Hp|]. exists e, db'. rewrite Hrun.
        split; [reflexivity|]. split; [exact He | exact Hfk].
    + right. split; [reflexivity|]. eexists; eexists.
      split; [reflexivity|]. split; reflexivity.
Qed.

Arguments insert_transitions : simpl never.

(** The references of the rows of one insert, row by row. *)
Lemma transition_references_run vs db :
  (endpoints_present vs db = true
   /\ exists us, mapM transition_references vs db = (Ok us, db))
  \/ (endpoints_present vs db = false
      /\ exists c,
           mapM transition_references vs db = (Err (ForeignKeyViolation c), db)).
Proof.
  unfold endpoints_present. rewrite <- forallb_andb.
  induction vs as [|v vs IH]; [left; split; [reflexivity | now exists []]|].
  rewrite mapM_cons_run. cbn [forallb].
  assert (Hv : transition_references v db =
               if step_exists (NewTransition.toStepId v) db
               then if step_exists (NewTransition.fromStepId v) db
                    then (Ok tt, db)
                    else (Err (ForeignKeyViolation
                                 "workflow_step_transitions.from_step_id"), db)
               else (Err (ForeignKeyViolation
                            "workflow_step_transitions.to_step_id"), db)).
  { unfold transition_references, bind, references.
    destruct (step_exists (NewTransition.toStepId v) db); reflexivity. }
  rewrite Hv.
  destruct (step_exists (NewTransition.toStepId v) db);
    [|right; rewrite andb_false_r; split; [reflexivity | eauto]].
  destruct (step_exists (NewTransition.fromStepId v) db);
    [|right; split; [reflexivity | eauto]].
  cbn [andb].
  destruct IH as [[Hp (us & Hrun)] | [Hp (c & Hrun)]]; rewrite Hrun, Hp.
  - left. split; [reflexivity | eauto].
  - right. split; [reflexivity | eauto].
Qed.

Lemma insert_transitions_run date v vs db :
  let n := Z.of_nat (List.length (v :: vs)) in
  let db1 := set_seqs (bump_transitions n (seqs db)) db in
  (forallb transition_fits (v :: vs) && endpoints_present (v :: vs) db = true
   /\ insert_transitions date (v :: vs) db =
      (Ok tt,
       set_transitions
         (workflowStepTransitions (tables db)
          ++ transition_rows (transitions_seq (seqs db)) date (v :: vs))
         db1))
  \/ (forallb transition_fits (v :: vs) && endpoints_present (v :: vs) db
      = false
      /\ exists e db',
           insert_transitions date (v :: vs) db = (Err e, db')
           /\ store_refusal e = true).
Proof.
  intros n db1.
  assert (Hrun : insert_transitions date (v :: vs) db =
                 match first_refusal (flat_map transition_refusals (v :: vs))
                 with
                 | Some e => (Err e, db)
                 | None =>
                     match mapM transition_references (v :: vs) db1 with
                     | (Ok _, d) =>
                         (Ok tt,
                          set_transitions
                            (workflowStepTransitions (tables d)
                             ++ transition_rows (transitions_seq (seqs db))
                                  date (v :: vs))
                            d)
                     | (Err e, d) => (Err e, d)
                     end
                 end).
  { unfold insert_transitions. unfold bind at 1. rewrite bind_values_run.
    destruct (first_refusal _); [reflexivity|].
    unfold bind at 1, next_transition_ids, nextval. fold n. fold db1.
    unfold bind at 1.
    destruct (mapM transition_references (v :: vs) db1) as [[us|e] d];
      reflexivity. }
  rewrite Hrun. clear Hrun.
  destruct (first_refusal (flat_map transition_refusals (v :: vs)))
    as [e|] eqn:Hf.
  { right. split.
    - destruct (forallb transition_fits (v :: vs)) eqn:Hfit; [|reflexivity].
      apply transitions_refusals_fits in Hfit. congruence.
    - exists e, db. split; [reflexivity|].
      eapply transition_refusals_store; eassumption. }
  apply transitions_refusals_fits in Hf. rewrite Hf. cbn [andb].
  change (endpoints_present (v :: vs) db)
    with (endpoints_present (v :: vs) db1).
  destruct (transition_references_run (v :: vs) db1)
    as [[Hp (us & Hrun)] | [Hp (c & Hrun)]]; rewrite Hrun, Hp.
  - left. split; reflexivity.
  - right. split; [reflexivity|]. eexists; eexists. split; reflexivity.
Qed.

Lemma is_some_find_last {A} (p : A -> bool) (l : list A) (x : A) :
  p x = true -> is_some (find p (l ++ [x])) = true.
Proof.
  intros Hx. induction l as [|y l IH]; simpl.
  - now rewrite Hx.
  - destruct (p y); [reflexivity | exact IH].
Qed.

(** Every way a [createWorkflowTemplate] call can go. *)
Lemma createWorkflowTemplate_cases now date input db :
  if create_accepted now input db
  then createWorkflowTemplate now date input db =
       (Ok (created_template now input db), created now date input db)
  else exists e db',
         createWorkflowTemplate now date input db = (Err e, db')
         /\ tables db' = tables db
         /\ (e = EmptyValues
             /\ roles_present (CreateInput.steps input) db = true
             \/ store_refusal e = true)
         /\ (template_fits (CreateInput.name input)
               (CreateInput.description input) = true ->
             forallb step_fits (CreateInput.steps input) = true ->
             roles_present (CreateInput.steps input) db = false ->
             e = ForeignKeyViolation "workflow_steps.role_id").
Proof.
  set (t := created_template now input db).
  set (db2 := with_template_and_steps now input db).
  set (run := createWorkflowTemplate now date input db).
  pose proof (eq_refl run) as Hrun. unfold run at 2 in Hrun. clearbody run.
  unfold createWorkflowTemplate, transaction in Hrun.
  unfold bind at 1 in Hrun. rewrite insert_template_run in Hrun.
  unfold create_accepted.
  destruct (first_refusal (template_refusals (CreateInput.name input)
                             (CreateInput.description input)))
    as [e|] eqn:Hf.
  { assert (Hfit : template_fits (CreateInput.name input)
                     (CreateInput.description input) = false).
    { destruct (template_fits _ _) eqn:E; [|reflexivity].
      apply template_refusals_fits in E. congruence. }
    rewrite Hfit. cbn [andb].
    exists e. eexists. split; [exact Hrun|]. split; [reflexivity|].
    split; [right; eapply template_refusals_store; eassumption|].
    discriminate. }
  apply template_refusals_fits in Hf. rewrite Hf. cbn [andb].
  cbv zeta iota beta in Hrun.
  change (Template.mk (templates_seq (seqs db))
            (clip 255 (CreateInput.name input))
            (Some (CreateInput.description input)) true now) with t in Hrun.
  match type of Hrun with
  | context [bind (mapM ?f ?vs) ?k ?d] => set (db1 := d) in Hrun
  end.
  assert (Ht : template_exists (Template.id t) db1 = true).
  { unfold template_exists, find_template. subst db1. cbn.
    apply is_some_find_last. apply Z.eqb_refl. }
  unfold bind at 1 in Hrun.
  destruct (mapM_insert_step_run now (Template.id t) (CreateInput.steps input)
              db1 Ht)
    as [[Hp (rs & Hlen & Hm)] | [Hp (e & db' & Hm & He & Hfk)]];
    change (forallb (fun v => step_fits v
                              && role_exists (NewStep.roleId v) db1)
              (CreateInput.steps input))
      with (forallb (fun v => step_fits v
                              && role_exists (NewStep.roleId v) db)
              (CreateInput.steps input)) in Hp;
    rewrite Hm in Hrun; rewrite Hp; cbn [andb].
  2:{ exists e. eexists. split; [exact Hrun|]. split; [reflexivity|].
      split; [now right|]. intros _ Hfits _. now apply Hfk. }
  assert (Hroles : roles_present (CreateInput.steps input) db = true).
  { rewrite forallb_andb in Hp. apply andb_true_iff in Hp. apply Hp. }
  match type of Hrun with
  | context [bind _ _ ?d] => change d with db2 in Hrun
  end.
  unfold bind at 1 in Hrun. rewrite Hlen in Hrun.
  destruct (CreateInput.steps input) as [|v vs] eqn:Hsteps.
  - cbv iota. rewrite Hrun. cbn -[db2]. unfold created. rewrite Hsteps.
    reflexivity.
  - assert (Hpos : (0 <? Z.of_nat (List.length (v :: vs))) = true).
    { apply Z.ltb_lt. simpl List.length. lia. }
    rewrite Hpos in Hrun.
    destruct (CreateInput.transitions input) as [|x xs] eqn:Htr.
    + cbv iota. exists EmptyValues. eexists. split; [exact Hrun|].
      split; [reflexivity|]. split; [left; now split|]. congruence.
    + cbv iota. fold db2.
      destruct (insert_transitions_run date x xs db2)
        as [[Hok Hi] | [Hok (e & db' & Hi & He)]]; rewrite Hi in Hrun;
        rewrite Hok.
      * rewrite Hrun. unfold ret. unfold created.
        rewrite Hsteps, Htr. reflexivity.
      * exists e. eexists. split; [exact Hrun|]. split; [reflexivity|].
        split; [now right|]. congruence.
Qed.

Lemma transition_rows_ends id date vs :
  map stored_ends (transition_rows id date vs) = map supplied_ends vs.
Proof.
  revert id. induction vs as [|v vs IH]; intros id; simpl; [reflexivity|].
  now rewrite IH.
Qed.

Lemma createWorkflowTemplate_ok_inv now date input db t db' :
  createWorkflowTemplate now date input db = (Ok t, db') ->
  t = created_template now input db /\ db' = created now date input db
  /\ create_accepted now input db = true.
Proof.
  intros H. pose proof (createWorkflowTemplate_cases now date input db) as Hc.
  destruct (create_accepted now input db).
  - rewrite Hc in H. injection H as <- <-. auto.
  - destruct Hc as (e & d & E & _). rewrite E in H. discriminate.
Qed.

Lemma createWorkflowTemplate_err_inv now date input db e db' :
  createWorkflowTemplate now date input db = (Err e, db') ->
  tables db' = tables db.
Proof.
  unfold createWorkflowTemplate, transaction.
  match goal with |- context [match ?m with _ => _ end] => destruct m as [[a|e'] d] end;
    intros [= <- <-]; reflexivity.
Qed.

(** What an accepted call needs. *)
Lemma create_accepted_inv now input db :
  create_accepted now input db = true ->
  template_fits (CreateInput.name input) (CreateInput.description input)
  = true
  /\ forallb step_fits (CreateInput.steps input) = true
  /\ roles_present (CreateInput.steps input) db = true
  /\ (CreateInput.steps input = []
      \/ (CreateInput.transitions input <> []
          /\ forallb transition_fits (CreateInput.transitions input) = true
          /\ endpoints_present (CreateInput.transitions input)
               (with_template_and_steps now input db) = true)).
Proof.
  unfold create_accepted, roles_present. rewrite forallb_andb.
  rewrite !andb_true_iff. intros [[Ht [Hs Hr]] Hm].
  repeat (split; [assumption|]).
  destruct (CreateInput.steps input); [now left|].
  destruct (CreateInput.transitions input); [discriminate|].
  apply andb_true_iff in Hm. right. split; [discriminate | exact Hm].
Qed.

Lemma refusal_kind e : store_refusal e = true -> kind e = InternalError.
Proof. destruct e; try discriminate; reflexivity. Qed.

Lemma roles_present_accepted now input db :
  roles_present (CreateInput.steps input) db = false ->
  create_accepted now input db = false.
Proof.
  intros H. destruct (create_accepted now input db) eqn:E; [|reflexivity].
  apply create_accepted_inv in E. destruct E as (_ & _ & E & _). congruence.
Qed.

(** C7, as the router has it.  [createWorkflowTemplate] has no check of
    its own; it fails when the store refuses a value or misses a
    referenced row, or when the list of values of an insert is empty.  A
    step whose role does not exist makes the call fail with a refusal of
    the store: the violated reference of [role_id], when the store takes
    the values of the template and of the steps.  On success the
    template, every supplied step and (when there are steps) every
    supplied transition are in the store together; a failing call leaves
    every table as it was. *)
Theorem createWorkflowTemplate_atomic now date input db :
  (roles_present (CreateInput.steps input) db = false ->
   exists e db',
     createWorkflowTemplate now date input db = (Err e, db')
     /\ tables db' = tables db
     /\ store_refusal e = true
     /\ (template_fits (CreateInput.name input)
           (CreateInput.description input) = true ->
         forallb step_fits (CreateInput.steps input) = true ->
         e = ForeignKeyViolation "workflow_steps.role_id"))
  /\ (forall t db',
        createWorkflowTemplate now date input db = (Ok t, db') ->
        workflowTemplates (tables db') = workflowTemplates (tables db) ++ [t]
        /\ workflowSteps (tables db') =
           workflowSteps (tables db)
           ++ step_rows now (Template.id t) (steps_seq (seqs db))
                (CreateInput.steps input)
        /\ workflowStepTransitions (tables db') =
           workflowStepTransitions (tables db)
           ++ match CreateInput.steps input with
              | [] => []
              | _ :: _ =>
                  transition_rows (transitions_seq (seqs db)) date
                    (CreateInput.transitions input)
              end)
  /\ (forall e db',
        createWorkflowTemplate now date input db = (Err e, db') ->
        tables db' = tables db).
Proof.
  split; [|split].
  - intros Hp.
    pose proof (createWorkflowTemplate_cases now date input db) as Hc.
    rewrite (roles_present_accepted now input db Hp) in Hc.
    destruct Hc as (e & db' & E & Ht & He & Hfk).
    exists e, db'. split; [exact E|]. split; [exact Ht|]. split.
    + destruct He as [[_ He] | He]; [congruence | exact He].
    + intros H1 H2. now apply Hfk.
  - intros t db' H.
    apply createWorkflowTemplate_ok_inv in H. destruct H as (-> & -> & _).
    unfold created, with_template_and_steps.
    destruct (CreateInput.steps input); cbn;
      rewrite ?app_nil_r; repeat split; reflexivity.
  - intros e db'. apply createWorkflowTemplate_err_inv.
Qed.

(** C10, as the store has it.  With a non-empty list of steps a
    successful call stores the transitions with the ends the caller
    supplied, whatever identities the steps of the call received.  With an
    empty list of steps and a name and description the store takes, the
    call succeeds, answers with the template and stores no transition. *)
Theorem createWorkflowTemplate_transition_ends now date input db :
  (forall t db',
     CreateInput.steps input <> [] ->
     createWorkflowTemplate now date input db = (Ok t, db') ->
     exists rows,
       workflowStepTransitions (tables db') =
       workflowStepTransitions (tables db) ++ rows
       /\ map stored_ends rows =
          map supplied_ends (CreateInput.transitions input))
  /\ (CreateInput.steps input = [] ->
      template_fits (CreateInput.name input) (CreateInput.description input)
      = true ->
      exists t db',
        createWorkflowTemplate now date input db = (Ok t, db')
        /\ workflowTemplates (tables db') =
           workflowTemplates (tables db) ++ [t]
        /\ workflowStepTransitions (tables db') =
           workflowStepTransitions (tables db)).
Proof.
  split.
  - intros t db' Hne H.
    apply createWorkflowTemplate_ok_inv in H. destruct H as (-> & -> & _).
    exists (transition_rows (transitions_seq (seqs db)) date
              (CreateInput.transitions input)).
    split; [|apply transition_rows_ends].
    unfold created.
    destruct (CreateInput.steps input); [contradiction | reflexivity].
  - intros Hs Hfit.
    pose proof (createWorkflowTemplate_cases now date input db) as Hc.
    unfold create_accepted in Hc. rewrite Hs, Hfit in Hc. cbn in Hc.
    exists (created_template now input db), (created now date input db).
    split; [exact Hc|].
    unfold created, with_template_and_steps. rewrite Hs. cbn.
    split; reflexivity.
Qed.

(** ** [startWorkflow] *)

Lemma is_some_find_in_step (l : list Step.t) (s : Step.t) :
  In s l -> is_some (find (fun x => Step.id x =? Step.id s) l) = true.
Proof.
  induction l as [|y l IH]; simpl; [contradiction|].
  intros [-> | H].
  - now rewrite Z.eqb_refl.
  - destruct (Step.id y =? Step.id s); [reflexivity | auto].
Qed.

(** [limit: 1] on the filtered rows is the first row that passes. *)
Lemma firstn_1_filter {A} (p : A -> bool) (l : list A) :
  firstn 1 (filter p l) =
  match find p l with
  | Some x => [x]
  | None => []
  end.
Proof.
  induction l as [|x l IH]; cbn [filter find]; [reflexivity|].
  destruct (p x); [reflexivity | exact IH].
Qed.

Lemma select_template_with_entry_step_run tid db :
  select_template_with_entry_step tid db =
  match find_template db tid with
  | None => None
  | Some t =>
      Some (t, match entry_step db tid with
               | Some s => [s]
               | None => []
               end)
  end.
Proof.
  unfold select_template_with_entry_step, entry_step.
  destruct (find_template db tid) as [t|] eqn:Ht; [|reflexivity].
  rewrite firstn_1_filter, (find_template_id _ _ _ Ht). reflexivity.
Qed.

Lemma template_with_entry_step_run tid db :
  template_with_entry_step tid db =
  if is_int4 tid
  then (Ok (select_template_with_entry_step tid db), db)
  else (Err (OutOfRange "workflow_templates.id"), db).
Proof.
  unfold template_with_entry_step. rewrite with_relation_steps.
  unfold bind at 1, ret. unfold bind at 1. rewrite bind_values_run.
  cbn [first_refusal]. unfold refuse_integer.
  destruct (is_int4 tid); reflexivity.
Qed.

Lemma user_role_with_user_run rid db :
  user_role_with_user rid db = (Ok (first_user_role rid db), db).
Proof. reflexivity. Qed.

Arguments template_with_entry_step : simpl never.
Arguments user_role_with_user : simpl never.

Lemma entry_step_in db tid s :
  entry_step db tid = Some s ->
  In s (workflowSteps (tables db)) /\ is_entry_step tid s = true.
Proof. apply find_some. Qed.

Lemma user_of_found rid db u :
  user_of (first_user_role rid db) = Some u ->
  find_user db (User.id u) = Some u.
Proof.
  unfold user_of, first_user_role.
  destruct (find _ (userRoles (tables db))) as [ur|]; [|discriminate].
  intros Hu. pose proof (find_user_id _ _ _ Hu) as E. now rewrite E.
Qed.

(** Every way a [startWorkflow] call can go. *)
Lemma startWorkflow_cases now input db :
  startWorkflow now input db =
  if is_int4 (StartInput.templateId input)
  then
    match find_template db (StartInput.templateId input),
          entry_step db (StartInput.templateId input) with
    | Some t, Some s =>
        match user_of (first_user_role (Step.roleId s) db) with
        | Some u =>
            match first_refusal
                    (instance_refusals (Some (User.id u))
                       (StartInput.entityType input)
                       (StartInput.entityId input)) with
            | Some e => (Err e, db)
            | None =>
                (Ok (started_instance now input t s u db),
                 started now input t s u db)
            end
        | None => (Err NoEligibleUsers, db)
        end
    | _, _ => (Err TemplateNotFoundOrNoSteps, db)
    end
  else (Err (OutOfRange "workflow_templates.id"), db).
Proof.
  set (run := startWorkflow now input db).
  pose proof (eq_refl run) as Hrun. unfold run at 2 in Hrun. clearbody run.
  unfold startWorkflow, transaction in Hrun.
  unfold bind at 1 in Hrun. rewrite template_with_entry_step_run in Hrun.
  destruct (is_int4 (StartInput.templateId input));
    [|now rewrite db_eta in Hrun].
  rewrite select_template_with_entry_step_run in Hrun.
  destruct (find_template db (StartInput.templateId input)) as [t|] eqn:Hft;
    [|cbn in Hrun; now rewrite db_eta in Hrun].
  destruct (entry_step db (StartInput.templateId input)) as [s|] eqn:Hs;
    [|cbn in Hrun; now rewrite db_eta in Hrun].
  cbn [List.length Z.of_nat Z.eqb nth_error] in Hrun.
  unfold bind at 1 in Hrun. rewrite user_role_with_user_run in Hrun.
  destruct (user_of (first_user_role (Step.roleId s) db)) as [u|] eqn:Hu;
    [|cbn in Hrun; now rewrite db_eta in Hrun].
  destruct (entry_step_in _ _ _ Hs) as [Hin _].
  pose proof (user_of_found _ _ _ Hu) as Huser.
  unfold bind at 1 in Hrun.
  destruct (first_refusal (instance_refusals _ _ _)) as [e|] eqn:Hf.
  { rewrite (insert_instance_refused _ _ _ _ _ _ _ _ _ Hf) in Hrun.
    now rewrite db_eta in Hrun. }
  rewrite (insert_instance_ok _ _ _ _ _ _ _ _ Hf) in Hrun.
  - cbv zeta in Hrun. unfold bind at 1 in Hrun.
    rewrite insert_assignment_ok in Hrun.
    + exact Hrun.
    + apply instance_refusals_fits in Hf. unfold instance_fits in Hf.
      rewrite !andb_true_iff in Hf. apply Hf.
    + unfold instance_exists, find_instance. cbn.
      apply is_some_find_last. apply Z.eqb_refl.
    + unfold step_exists, find_step. cbn. now apply is_some_find_in_step.
    + unfold user_exists. unfold find_user in *. cbn. now rewrite Huser.
  - unfold template_exists.
    rewrite (find_template_id _ _ _ Hft). now rewrite Hft.
  - unfold step_exists, find_step. now apply is_some_find_in_step.
  - unfold user_exists. now rewrite Huser.
Qed.

Lemma user_of_first_user_role rid db u :
  user_of (first_user_role rid db) = Some u ->
  exists ur, In ur (userRoles (tables db)) /\ UserRole.roleId ur = rid
             /\ UserRole.userId ur = User.id u.
Proof.
  unfold user_of, first_user_role.
  destruct (find _ (userRoles (tables db))) as [ur|] eqn:E; [|discriminate].
  intros Hu. apply find_some in E. destruct E as [Hin Hr].
  exists ur. repeat split; auto.
  - now apply Z.eqb_eq.
  - symmetry. eapply find_user_id; eauto.
Qed.

Lemma user_of_no_holder rid db :
  (forall ur, In ur (userRoles (tables db)) -> UserRole.roleId ur <> rid) ->
  user_of (first_user_role rid db) = None.
Proof.
  intros H. unfold user_of, first_user_role.
  destruct (find _ (userRoles (tables db))) as [ur|] eqn:E; [|reflexivity].
  apply find_some in E. destruct E as [Hin Hr].
  apply Z.eqb_eq in Hr. now apply H in Hin.
Qed.

Lemma startWorkflow_ok_inv now input db i db' :
  startWorkflow now input db = (Ok i, db') ->
  exists t s u,
    is_int4 (StartInput.templateId input) = true
    /\ find_template db (StartInput.templateId input) = Some t
    /\ entry_step db (StartInput.templateId input) = Some s
    /\ user_of (first_user_role (Step.roleId s) db) = Some u
    /\ instance_fits (Some (User.id u)) (StartInput.entityType input)
         (StartInput.entityId input) = true
    /\ i = started_instance now input t s u db
    /\ db' = started now input t s u db.
Proof.
  rewrite startWorkflow_cases.
  destruct (is_int4 _) eqn:Hr; [|discriminate].
  destruct (find_template db _) as [t|] eqn:Ht; [|discriminate].
  destruct (entry_step db _) as [s|] eqn:Hs; [|discriminate].
  destruct (user_of _) as [u|] eqn:Hu; [|discriminate].
  destruct (first_refusal _) eqn:Hf; [discriminate|].
  apply instance_refusals_fits in Hf.
  intros [= <- <-]. exists t, s, u. repeat split; auto.
Qed.

Lemma startWorkflow_err_inv now input db e db' :
  startWorkflow now input db = (Err e, db') -> db' = db.
Proof.
  rewrite startWorkflow_cases.
  destruct (is_int4 _); [|now intros [= _ <-]].
  destruct (find_template db _) as [t|]; [|now intros [= _ <-]].
  destruct (entry_step db _) as [s|]; [|now intros [= _ <-]].
  destruct (user_of _) as [u|]; [|now intros [= _ <-]].
  destruct (first_refusal _); [now intros [= _ <-] | discriminate].
Qed.

(** C4, as the store has it.  A [startWorkflow] call that answers gives an
    [ACTIVE] instance at the first step of order 1 of the template,
    assigned to the first user found holding the role of that step, the
    instance and one [PENDING] assignment for that step and user being the
    rows added; a call that fails leaves every table as it was.  With a
    template identity in the 32-bit range the call fails with the
    not-found error when the template does not exist or has no step of
    order 1, with the no-eligible-user error when no user holds the role
    of the entry step, and it answers when one does and the store takes
    the identity of that user and the entity type and identity.  With a template identity outside that
    range, or an entity type or identity the store does not take where
    the call would otherwise answer, the call fails with an error of the
    store. *)
Theorem startWorkflow_spec now input db :
  let tid := StartInput.templateId input in
  (forall i db',
     startWorkflow now input db = (Ok i, db') ->
     Instance.status i = Instance.ACTIVE
     /\ exists t s holder a,
          find_template db tid = Some t
          /\ Instance.workflowTemplateId i = tid
          /\ entry_step db tid = Some s
          /\ In s (workflowSteps (tables db))
          /\ Step.workflowTemplateId s = tid
          /\ Step.stepOrder s = 1
          /\ Instance.currentStepId i = Step.id s
          /\ In holder (userRoles (tables db))
          /\ UserRole.roleId holder = Step.roleId s
          /\ Instance.currentAssigneeId i = Some (UserRole.userId holder)
          /\ workflowInstances (tables db') =
             workflowInstances (tables db) ++ [i]
          /\ workflowStepAssignments (tables db') =
             workflowStepAssignments (tables db) ++ [a]
          /\ Assignment.status a = Assignment.PENDING
          /\ Assignment.workflowInstanceId a = Instance.id i
          /\ Assignment.stepId a = Step.id s
          /\ Assignment.assigneeId a = UserRole.userId holder)
  /\ (forall e db',
        startWorkflow now input db = (Err e, db') -> tables db' = tables db)
  /\ (is_int4 tid = true ->
      find_template db tid = None \/ entry_step db tid = None ->
      startWorkflow now input db = (Err TemplateNotFoundOrNoSteps, db)
      /\ kind TemplateNotFoundOrNoSteps = NotFoundError)
  /\ (forall t s,
        is_int4 tid = true ->
        find_template db tid = Some t ->
        entry_step db tid = Some s ->
        (forall ur, In ur (userRoles (tables db)) ->
                    UserRole.roleId ur <> Step.roleId s) ->
        startWorkflow now input db = (Err NoEligibleUsers, db)
        /\ kind NoEligibleUsers = NoEligibleAssigneeError)
  /\ (forall t s u,
        is_int4 tid = true ->
        find_template db tid = Some t ->
        entry_step db tid = Some s ->
        user_of (first_user_role (Step.roleId s) db) = Some u ->
        instance_fits (Some (User.id u)) (StartInput.entityType input)
          (StartInput.entityId input) = true ->
        startWorkflow now input db =
        (Ok (started_instance now input t s u db),
         started now input t s u db))
  /\ (is_int4 tid = false ->
      startWorkflow now input db = (Err (OutOfRange "workflow_templates.id"), db)
      /\ kind (OutOfRange "workflow_templates.id") = InternalError)
  /\ (forall t s u,
        is_int4 tid = true ->
        find_template db tid = Some t ->
        entry_step db tid = Some s ->
        user_of (first_user_role (Step.roleId s) db) = Some u ->
        instance_fits (Some (User.id u)) (StartInput.entityType input)
          (StartInput.entityId input) = false ->
        exists e db',
          startWorkflow now input db = (Err e, db')
          /\ tables db' = tables db
          /\ store_refusal e = true
          /\ kind e = InternalError).
Proof.
  intros tid.
  split; [|split; [|split; [|split; [|split; [|split]]]]].
  - intros i db' H. apply startWorkflow_ok_inv in H.
    destruct H as (t & s & u & _ & Ht & Hs & Hu & _ & -> & ->).
    fold tid in Ht, Hs.
    destruct (entry_step_in _ _ _ Hs) as [Hin He].
    unfold is_entry_step in He. apply andb_true_iff in He.
    destruct He as [Hst Hso]. apply Z.eqb_eq in Hst, Hso.
    destruct (user_of_first_user_role _ _ _ Hu) as (ur & Hur & Hrole & Huid).
    split; [reflexivity|].
    exists t, s, ur,
      (first_assignment now (started_instance now input t s u db) s u db).
    rewrite Huid. cbn.
    split; [exact Ht|]. split; [apply (find_template_id _ _ _ Ht)|].
    repeat split; auto.
  - intros e db' H. apply startWorkflow_err_inv in H. now subst.
  - intros Hr H. split; [|reflexivity].
    rewrite startWorkflow_cases. fold tid. rewrite Hr.
    destruct H as [-> | H]; [reflexivity|].
    rewrite H. now destruct (find_template db tid).
  - intros t s Hr Ht Hs Hnone. split; [|reflexivity].
    rewrite startWorkflow_cases. fold tid. rewrite Hr, Ht, Hs.
    now rewrite (user_of_no_holder _ _ Hnone).
  - intros t s u Hr Ht Hs Hu Hfit.
    rewrite startWorkflow_cases. fold tid. rewrite Hr, Ht, Hs, Hu.
    apply instance_refusals_fits in Hfit. now rewrite Hfit.
  - intros Hr. split; [|reflexivity].
    rewrite startWorkflow_cases. fold tid. now rewrite Hr.
  - intros t s u Hr Ht Hs Hu Hfit.
    rewrite startWorkflow_cases. fold tid. rewrite Hr, Ht, Hs, Hu.
    destruct (not_true_none _ _ (instance_refusals_fits _ _ _) Hfit)
      as [e He].
    rewrite He. exists e, db. split; [reflexivity|]. split; [reflexivity|].
    pose proof (instance_refusals_store _ _ _ _ He) as Hst.
    split; [exact Hst|]. now apply refusal_kind.
Qed.

(** ** [getAssignedWorkflows] *)

Lemma getAssignedWorkflows_run input db :
  getAssignedWorkflows input db =
  if text_ok (AssignedInput.userId input)
  then (Ok (map (with_relations db)
              (sort_by Instance.createdAt
                 (filter (assigned_to input)
                    (workflowInstances (tables db))))),
        db)
  else (Err (InvalidText "workflow_instances.current_assignee_id"), db).
Proof.
  unfold getAssignedWorkflows.
  change (with_relation Schema.workflowInstances_template)
    with (@ret (string * string) ("workflow_template_id", "id")).
  change (with_relation Schema.workflowInstances_currentStep)
    with (@ret (string * string) ("current_step_id", "id")).
  change (with_relation Schema.workflowInstances_currentAssignee)
    with (@ret (string * string) ("current_assignee_id", "id")).
  unfold bind at 1, ret. unfold bind at 1. unfold bind at 1.
  unfold bind at 1. rewrite bind_values_run. cbn [first_refusal].
  unfold refuse_text. destruct (text_ok _); reflexivity.
Qed.

Lemma getAssignedWorkflows_db input db r db' :
  getAssignedWorkflows input db = (r, db') -> db' = db.
Proof.
  rewrite getAssignedWorkflows_run.
  destruct (text_ok _); now intros [= _ <-].
Qed.

Arguments getAssignedWorkflows : simpl never.

Lemma status_eqb_eq a b : Instance.status_eqb a b = true <-> a = b.
Proof. destruct a, b; simpl; split; congruence. Qed.

Lemma assigned_to_true input i :
  assigned_to input i = true <->
  Instance.currentAssigneeId i = Some (AssignedInput.userId input)
  /\ match AssignedInput.status input with
     | Some s => Instance.status i = s
     | None => True
     end.
Proof.
  unfold assigned_to. rewrite andb_true_iff.
  change (match Instance.currentAssigneeId i with
          | Some u => String.eqb u (AssignedInput.userId input)
          | None => false
          end)
    with (is_assignee (Instance.currentAssigneeId i)
            (AssignedInput.userId input)).
  rewrite is_assignee_true.
  destruct (AssignedInput.status input) as [s|].
  - now rewrite status_eqb_eq.
  - tauto.
Qed.

(** C9. [getAssignedWorkflows], asked for a user whose identity the store
    takes as text, answers with exactly the instances whose current
    assignee is the user (and whose status is the one asked for, when one
    is), in ascending order of creation time, each with its template,
    current step and current assignee; asked for an identity that holds a
    NUL character it fails with the refusal of the store; the store is
    left as it was in every case. *)
Theorem getAssignedWorkflows_spec input db :
  (text_ok (AssignedInput.userId input) = true ->
   exists rows,
     getAssignedWorkflows input db = (Ok rows, db)
     /\ Permutation (map AssignedRow.instance rows)
          (filter (assigned_to input) (workflowInstances (tables db)))
     /\ (forall i,
           In i (map AssignedRow.instance rows) <->
           In i (workflowInstances (tables db))
           /\ Instance.currentAssigneeId i
              = Some (AssignedInput.userId input)
           /\ match AssignedInput.status input with
              | Some s => Instance.status i = s
              | None => True
              end)
     /\ StronglySorted (key_le Instance.createdAt)
          (map AssignedRow.instance rows)
     /\ Forall (fun r =>
                  let i := AssignedRow.instance r in
                  AssignedRow.template r =
                  find_template db (Instance.workflowTemplateId i)
                  /\ AssignedRow.currentStep r =
                     find_step db (Instance.currentStepId i)
                  /\ AssignedRow.currentAssignee r =
                     find_user db (AssignedInput.userId input))
          rows)
  /\ (text_ok (AssignedInput.userId input) = false ->
      getAssignedWorkflows input db =
      (Err (InvalidText "workflow_instances.current_assignee_id"), db))
  /\ (forall r db', getAssignedWorkflows input db = (r, db') -> db' = db).
Proof.
  split; [|split].
  2: { intros Hnul. rewrite getAssignedWorkflows_run. now rewrite Hnul. }
  2: { intros r db'. apply getAssignedWorkflows_db. }
  intros Htext. rewrite getAssignedWorkflows_run, Htext.
  set (kept := filter (assigned_to input) (workflowInstances (tables db))).
  exists (map (with_relations db) (sort_by Instance.createdAt kept)).
  assert (Hmap : map AssignedRow.instance
                   (map (with_relations db) (sort_by Instance.createdAt kept))
                 = sort_by Instance.createdAt kept).
  { rewrite map_map. cbn. apply map_id. }
  rewrite Hmap.
  split; [reflexivity|].
  split; [apply sort_by_perm|].
  split.
  - intros i. rewrite <- assigned_to_true, <- filter_In. fold kept.
    split; apply Permutation_in;
      [apply sort_by_perm | symmetry; apply sort_by_perm].
  - split; [apply sort_by_sorted|].
    apply Forall_forall. intros r Hr.
    apply in_map_iff in Hr. destruct Hr as (i & <- & Hi).
    apply (Permutation_in _ (sort_by_perm Instance.createdAt kept)) in Hi.
    apply filter_In in Hi. destruct Hi as [_ Hi].
    apply assigned_to_true in Hi. destruct Hi as [Hi _].
    cbn. rewrite Hi. auto.
Qed.

(** ** [takeAction] *)

(** The first query of [takeAction] asks for the relation
    [fromTransitions] of a step; the schema declares no relation for the
    transitions table, so nothing points back and the query throws. *)
Lemma instance_with_current_step_run iid db :
  instance_with_current_step iid db =
  (Err (RelationNotInferred "workflowSteps.fromTransitions"), db).
Proof.
  unfold instance_with_current_step. unfold bind at 1.
  rewrite with_relation_currentStep. unfold ret. unfold bind at 1.
  now rewrite with_relation_fromTransitions.
Qed.

Arguments instance_with_current_step : simpl never.

(** With the columns a relation on [from_step_id] would give, the rows of
    the relation are the transitions that leave the step. *)
Lemma related_transitions_leaving db s :
  related_transitions ("id", "from_step_id") db s = leaving db s.
Proof.
  unfold related_transitions, leaving. apply filter_ext.
  intros t. cbn. apply Z.eqb_sym.
Qed.

Lemma takeActionWith_run hR hA now input db :
  takeActionWith hR hA now input db =
  (Err (RelationNotInferred "workflowSteps.fromTransitions"), db).
Proof.
  unfold takeActionWith, transaction. unfold bind at 1.
  rewrite instance_with_current_step_run. now rewrite db_eta.
Qed.

Lemma takeAction_run now input db :
  takeAction now input db =
  (Err (RelationNotInferred "workflowSteps.fromTransitions"), db).
Proof. apply takeActionWith_run. Qed.

Arguments takeAction : simpl never.
Arguments takeActionWith : simpl never.

(** ** What a call can do to the instances and to the audit log *)




(** C1, at the failing input.  Instance 1 is [ACTIVE] at step 1, user u1
    is its assignee, and two transitions without condition leave step 1,
    to step 2 under identity 1 and to step 3 under identity 2.  The
    [APPROVE] of u1 does not move the instance to step 2: the call fails
    at its first query, which cannot resolve the relation
    [fromTransitions], and the instance is where it was. *)
Theorem takeAction_approve_fails :
  find_instance ex_db (ActionInput.instanceId ex_approve) = Some ex_i1
  /\ Instance.status ex_i1 = Instance.ACTIVE
  /\ Instance.currentAssigneeId ex_i1 = Some (ActionInput.userId ex_approve)
  /\ ActionInput.actionType ex_approve = APPROVE
  /\ find_step ex_db (Instance.currentStepId ex_i1) = Some ex_s1
  /\ map (fun t => (Transition.id t, Transition.conditionType t,
                    Transition.toStepId t))
       (sort_by Transition.id (leaving ex_db ex_s1)) =
     [(1, None, 2); (2, None, 3)]
  /\ takeAction 20 ex_approve ex_db =
     (Err (RelationNotInferred "workflowSteps.fromTransitions"), ex_db)
  /\ find_instance (snd (takeAction 20 ex_approve ex_db))
       (ActionInput.instanceId ex_approve) = Some ex_i1
  /\ Instance.currentStepId ex_i1 = 1.
Proof. repeat split. Qed.

(** C5, at the failing input.  User u2 is not the assignee of instance 1.
    The call fails, and leaves the store as it was, but not with the
    authorisation error: it fails at its first query, before the
    comparison with the assignee is reached. *)
Theorem takeAction_intruder_fails :
  find_instance ex_db (ActionInput.instanceId ex_intruder) = Some ex_i1
  /\ Instance.currentAssigneeId ex_i1
     <> Some (ActionInput.userId ex_intruder)
  /\ takeAction 20 ex_intruder ex_db =
     (Err (RelationNotInferred "workflowSteps.fromTransitions"), ex_db)
  /\ kind (RelationNotInferred "workflowSteps.fromTransitions")
     <> UnauthorizedActionError
  /\ message (RelationNotInferred "workflowSteps.fromTransitions")
     <> message NotAuthorized.
Proof. repeat split; discriminate. Qed.

(** C8, at the failing input.  User u1 is the assignee of instance 1, so
    the [MODIFY] passes the authorisation the claim speaks of; the call
    fails at its first query and the audit log has no new row. *)
Theorem takeAction_leaves_no_audit_row :
  find_instance ex_db (ActionInput.instanceId ex_modify) = Some ex_i1
  /\ Instance.currentAssigneeId ex_i1 = Some (ActionInput.userId ex_modify)
  /\ takeAction 20 ex_modify ex_db =
     (Err (RelationNotInferred "workflowSteps.fromTransitions"), ex_db)
  /\ workflowActions (tables (snd (takeAction 20 ex_modify ex_db))) =
     workflowActions (tables ex_db).
Proof. repeat split. Qed.

(** C2, as the router has it.  A [REJECT] on an [ACTIVE] instance leaves
    the instance [ACTIVE]; when the current step has no rejection target
    (none, or the value 0), the instance also keeps its current step, its
    assignee and its empty completion time: nothing in the router sets
    the status [REJECTED]. *)
Theorem takeAction_reject now input db i :
  find_instance db (ActionInput.instanceId input) = Some i ->
  Instance.status i = Instance.ACTIVE ->
  ActionInput.actionType input = REJECT ->
  forall r db',
    takeAction now input db = (r, db') ->
    exists i',
      find_instance db' (ActionInput.instanceId input) = Some i'
      /\ Instance.status i' = Instance.ACTIVE
      /\ ((forall s, find_step db (Instance.currentStepId i) = Some s ->
                     Step.rejectionStepId s = None
                     \/ Step.rejectionStepId s = Some 0) ->
          Instance.currentStepId i' = Instance.currentStepId i
          /\ Instance.currentAssigneeId i' = Instance.currentAssigneeId i
          /\ Instance.completedAt i' = Instance.completedAt i).
Proof.
  intros Hi Hst _ r db'. rewrite takeAction_run. intros [= <- <-].
  exists i. auto.
Qed.



(** * The properties on the example store *)

(** C2 as stated fails in both its halves.  Instance 1 is [ACTIVE] at
    step 1, which has no rejection target, and user u1 is its assignee:
    after the [REJECT] of u1 the instance is still [ACTIVE], still assigned
    and without completion time.  Instance 5 is [ACTIVE] at step 5, whose
    rejection target is step 1, and user u2 is its assignee: after the
    [REJECT] of u2 the instance is still at step 5 and no assignment was
    added. *)
Lemma reject_changes_nothing :
  (find_instance ex_db (ActionInput.instanceId ex_reject) = Some ex_i1
   /\ Instance.status ex_i1 = Instance.ACTIVE
   /\ Instance.currentAssigneeId ex_i1 = Some (ActionInput.userId ex_reject)
   /\ ActionInput.actionType ex_reject = REJECT
   /\ find_step ex_db (Instance.currentStepId ex_i1) = Some ex_s1
   /\ Step.rejectionStepId ex_s1 = None
   /\ find_instance (snd (takeAction 20 ex_reject ex_db)) 1 = Some ex_i1
   /\ Instance.status ex_i1 <> Instance.REJECTED
   /\ Instance.currentAssigneeId ex_i1 <> None
   /\ Instance.completedAt ex_i1 = None)
  /\ (find_instance ex_db (ActionInput.instanceId ex_reject_to_target)
      = Some ex_i5
      /\ Instance.status ex_i5 = Instance.ACTIVE
      /\ Instance.currentAssigneeId ex_i5
         = Some (ActionInput.userId ex_reject_to_target)
      /\ ActionInput.actionType ex_reject_to_target = REJECT
      /\ find_step ex_db (Instance.currentStepId ex_i5) = Some ex_s5
      /\ Step.rejectionStepId ex_s5 = Some 1
      /\ find_instance (snd (takeAction 20 ex_reject_to_target ex_db)) 5
         = Some ex_i5
      /\ Instance.currentStepId ex_i5 <> 1
      /\ workflowStepAssignments
           (tables (snd (takeAction 20 ex_reject_to_target ex_db)))
         = workflowStepAssignments (tables ex_db)).
Proof. repeat split; discriminate. Qed.

(** C2 on the example: the rejection of instance 1 at step 1. *)
Lemma takeAction_reject_witness :
  exists i',
    find_instance ex_db (ActionInput.instanceId ex_reject) = Some i'
    /\ Instance.status i' = Instance.ACTIVE
    /\ Instance.currentStepId i' = 1
    /\ Instance.currentAssigneeId i' = Some "u1"
    /\ Instance.completedAt i' = None.
Proof.
  destruct (takeAction_reject 20 ex_reject ex_db ex_i1 eq_refl eq_refl eq_refl
              (Err (RelationNotInferred "workflowSteps.fromTransitions"))
              ex_db eq_refl)
    as (i' & Hfound & Hstatus & Hrest).
  exists i'. split; [exact Hfound|]. split; [exact Hstatus|].
  apply Hrest. intros s [= <-]. now left.
Defined.





(** C4 as stated fails outside the 32-bit range.  No template has the
    identity 2147483648, and the call fails with an error of the store,
    not with the not-found error.  Template 1 exists, has the entry step 1
    and user u1 holds its role, and with the entity identity 2147483648
    the call fails, with an error that is neither the not-found nor the
    no-eligible-user error. *)
Lemma startWorkflow_out_of_range :
  (find_template ex_db (StartInput.templateId ex_start_out_of_range) = None
   /\ startWorkflow 20 ex_start_out_of_range ex_db =
      (Err (OutOfRange "workflow_templates.id"), ex_db)
   /\ kind (OutOfRange "workflow_templates.id") <> NotFoundError)
  /\ (find_template ex_db (StartInput.templateId ex_start_entity_out_of_range)
      = Some ex_t1
      /\ entry_step ex_db 1 = Some ex_s1
      /\ user_of (first_user_role (Step.roleId ex_s1) ex_db) = Some ex_u1
      /\ fst (startWorkflow 20 ex_start_entity_out_of_range ex_db) =
         Err (OutOfRange "workflow_instances.entity_id")
      /\ tables (snd (startWorkflow 20 ex_start_entity_out_of_range ex_db))
         = tables ex_db
      /\ kind (OutOfRange "workflow_instances.entity_id") <> NotFoundError
      /\ kind (OutOfRange "workflow_instances.entity_id")
         <> NoEligibleAssigneeError).
Proof. repeat split; discriminate. Qed.

(** C4 on the example: template 1 starts at step 1 with user u1, template
    9 does not exist, nobody holds the role of the entry step of template
    2, and the identities outside the range are refused. *)
Lemma startWorkflow_spec_witness :
  (let i := started_instance 20 ex_start ex_t1 ex_s1 ex_u1 ex_db in
   let db' := started 20 ex_start ex_t1 ex_s1 ex_u1 ex_db in
   startWorkflow 20 ex_start ex_db = (Ok i, db')
   /\ Instance.status i = Instance.ACTIVE
   /\ exists t s holder a,
        find_template ex_db 1 = Some t
        /\ Instance.workflowTemplateId i = 1
        /\ entry_step ex_db 1 = Some s
        /\ In s (workflowSteps (tables ex_db))
        /\ Step.workflowTemplateId s = 1
        /\ Step.stepOrder s = 1
        /\ Instance.currentStepId i = Step.id s
        /\ In holder (userRoles (tables ex_db))
        /\ UserRole.roleId holder = Step.roleId s
        /\ Instance.currentAssigneeId i = Some (UserRole.userId holder)
        /\ workflowInstances (tables db') =
           workflowInstances (tables ex_db) ++ [i]
        /\ workflowStepAssignments (tables db') =
           workflowStepAssignments (tables ex_db) ++ [a]
        /\ Assignment.status a = Assignment.PENDING
        /\ Assignment.workflowInstanceId a = Instance.id i
        /\ Assignment.stepId a = Step.id s
        /\ Assignment.assigneeId a = UserRole.userId holder)
  /\ (startWorkflow 20 ex_start_missing ex_db =
      (Err TemplateNotFoundOrNoSteps, ex_db)
      /\ kind TemplateNotFoundOrNoSteps = NotFoundError)
  /\ (startWorkflow 20 ex_start_no_holder ex_db = (Err NoEligibleUsers, ex_db)
      /\ kind NoEligibleUsers = NoEligibleAssigneeError)
  /\ (startWorkflow 20 ex_start_out_of_range ex_db =
      (Err (OutOfRange "workflow_templates.id"), ex_db)
      /\ kind (OutOfRange "workflow_templates.id") = InternalError)
  /\ (exists e db',
        startWorkflow 20 ex_start_entity_out_of_range ex_db = (Err e, db')
        /\ tables db' = tables ex_db
        /\ store_refusal e = true
        /\ kind e = InternalError)
  /\ tables (snd (startWorkflow 20 ex_start_missing ex_db)) = tables ex_db.
Proof.
  pose proof (startWorkflow_spec 20 ex_start ex_db) as (Hok & _ & _ & _ & Hrun & _).
  pose proof (startWorkflow_spec 20 ex_start_missing ex_db)
    as (_ & Herr & Hmissing & _).
  pose proof (startWorkflow_spec 20 ex_start_no_holder ex_db)
    as (_ & _ & _ & Hnone & _).
  pose proof (startWorkflow_spec 20 ex_start_out_of_range ex_db)
    as (_ & _ & _ & _ & _ & Hrange & _).
  pose proof (startWorkflow_spec 20 ex_start_entity_out_of_range ex_db)
    as (_ & _ & _ & _ & _ & _ & Hentity).
  split; [|split; [|split; [|split; [|split]]]].
  - split.
    + exact (Hrun ex_t1 ex_s1 ex_u1 eq_refl eq_refl eq_refl eq_refl eq_refl).
    + exact (Hok _ _ (Hrun ex_t1 ex_s1 ex_u1 eq_refl eq_refl eq_refl eq_refl
                        eq_refl)).
  - exact (Hmissing eq_refl (or_introl eq_refl)).
  - apply (Hnone ex_t2 ex_s4 eq_refl eq_refl eq_refl).
    intros ur Hur. simpl in Hur.
    destruct Hur as [<- | [<- | []]]; discriminate.
  - exact (Hrange eq_refl).
  - exact (Hentity ex_t1 ex_s1 ex_u1 eq_refl eq_refl eq_refl eq_refl eq_refl).
  - exact (Herr TemplateNotFoundOrNoSteps _ eq_refl).
Defined.

(** C7 as stated fails: the request has two steps of order 1, a rejection
    target 99 that is no step, and a transition between steps 1 and 2 of
    template 1 while the steps it creates are 6 and 7; the call succeeds
    and stores all of it. *)
Lemma unvalidated_template_is_created :
  map NewStep.stepOrder (CreateInput.steps ex_create) = [1; 1]
  /\ createWorkflowTemplate 20 21 ex_create ex_db =
     (Ok (Template.mk 4 "travel" (Some "travel approval") true 20),
      created 20 21 ex_create ex_db)
  /\ workflowSteps (tables (created 20 21 ex_create ex_db)) =
     workflowSteps (tables ex_db)
     ++ [Step.mk 6 4 "first" 1 1 true false (Some 99) 20;
         Step.mk 7 4 "second" 1 2 true false None 20]
  /\ find_step (created 20 21 ex_create ex_db) 99 = None
  /\ workflowStepTransitions (tables (created 20 21 ex_create ex_db)) =
     workflowStepTransitions (tables ex_db)
     ++ [Transition.mk 3 1 2 None None 21]
  /\ map Step.workflowTemplateId [ex_s1; ex_s2] = [1; 1].
Proof. repeat split. Qed.

(** C7 on the example: the request naming role 7 fails and leaves the
    tables as they were; the request above stores its template, its two
    steps and its transition. *)
Lemma createWorkflowTemplate_atomic_witness :
  (exists e db',
     createWorkflowTemplate 20 21 ex_create_no_role ex_db = (Err e, db')
     /\ tables db' = tables ex_db
     /\ store_refusal e = true
     /\ e = ForeignKeyViolation "workflow_steps.role_id")
  /\ (let t := created_template 20 ex_create ex_db in
      let db' := created 20 21 ex_create ex_db in
      workflowTemplates (tables db') = workflowTemplates (tables ex_db) ++ [t]
      /\ workflowSteps (tables db') =
         workflowSteps (tables ex_db)
         ++ step_rows 20 (Template.id t) (steps_seq (seqs ex_db))
              (CreateInput.steps ex_create)
      /\ workflowStepTransitions (tables db') =
         workflowStepTransitions (tables ex_db)
         ++ transition_rows (transitions_seq (seqs ex_db)) 21
              (CreateInput.transitions ex_create))
  /\ tables (snd (createWorkflowTemplate 20 21 ex_create_no_role ex_db))
     = tables ex_db.
Proof.
  split; [|split].
  - destruct (proj1 (createWorkflowTemplate_atomic 20 21 ex_create_no_role
                       ex_db) eq_refl)
      as (e & db' & Hrun & Htables & Hstore & Hfk).
    exists e, db'. split; [exact Hrun|]. split; [exact Htables|].
    split; [exact Hstore|]. exact (Hfk eq_refl eq_refl).
  - exact (proj1 (proj2 (createWorkflowTemplate_atomic 20 21 ex_create ex_db))
             _ _ eq_refl).
  - exact (proj2 (proj2 (createWorkflowTemplate_atomic 20 21 ex_create_no_role
                           ex_db))
             (ForeignKeyViolation "workflow_steps.role_id") _ eq_refl).
Defined.

(** C10 as stated fails for a name the store does not take: the request
    has no steps and a name of 256 characters, none of them blank; the
    call fails and no template is stored. *)
Lemma long_name_without_steps_fails :
  CreateInput.steps ex_create_long_name = []
  /\ String.length (CreateInput.name ex_create_long_name) = 256%nat
  /\ template_fits (CreateInput.name ex_create_long_name)
       (CreateInput.description ex_create_long_name) = false
  /\ fst (createWorkflowTemplate 20 21 ex_create_long_name ex_db) =
     Err (ValueTooLong "workflow_templates.name")
  /\ workflowTemplates
       (tables (snd (createWorkflowTemplate 20 21 ex_create_long_name ex_db)))
     = workflowTemplates (tables ex_db).
Proof. repeat split. Qed.

(** C10 on the example: the stored transition runs from 1 to 2, not
    between the new steps 6 and 7; without steps nothing is stored. *)
Lemma createWorkflowTemplate_transition_ends_witness :
  (exists rows,
     workflowStepTransitions (tables (created 20 21 ex_create ex_db)) =
     workflowStepTransitions (tables ex_db) ++ rows
     /\ map stored_ends rows = [(1, 2)])
  /\ (exists t db',
        createWorkflowTemplate 20 21 ex_create_no_steps ex_db = (Ok t, db')
        /\ workflowTemplates (tables db') =
           workflowTemplates (tables ex_db) ++ [t]
        /\ workflowStepTransitions (tables db') =
           workflowStepTransitions (tables ex_db)).
Proof.
  split.
  - apply (proj1 (createWorkflowTemplate_transition_ends 20 21 ex_create ex_db)
             (created_template 20 ex_create ex_db)).
    + discriminate.
    + reflexivity.
  - exact (proj2 (createWorkflowTemplate_transition_ends 20 21
                    ex_create_no_steps ex_db) eq_refl eq_refl).
Defined.


(** C9 as stated fails on a user identity that holds a NUL character: no
    instance of the example store is assigned to such a user, so the
    answer would be the empty list, and the call fails with the refusal
    of the store instead. *)
Lemma getAssignedWorkflows_refuses_nul :
  filter (assigned_to ex_assigned_nul) (workflowInstances (tables ex_db)) = []
  /\ getAssignedWorkflows ex_assigned_nul ex_db =
     (Err (InvalidText "workflow_instances.current_assignee_id"), ex_db)
  /\ ~ (exists rows,
          fst (getAssignedWorkflows ex_assigned_nul ex_db) = Ok rows).
Proof.
  split; [reflexivity|]. split; [reflexivity|].
  intros [rows H]. discriminate H.
Qed.

(** C9 on the example: the [ACTIVE] work of user u1 is instances 1 and 4,
    and the identity with a NUL character is refused. *)
Lemma getAssignedWorkflows_spec_witness :
  text_ok (AssignedInput.userId ex_assigned) = true
  /\ (exists rows,
        getAssignedWorkflows ex_assigned ex_db = (Ok rows, ex_db)
        /\ Permutation (map AssignedRow.instance rows) [ex_i1; ex_i4]
        /\ StronglySorted (key_le Instance.createdAt)
             (map AssignedRow.instance rows))
  /\ text_ok (AssignedInput.userId ex_assigned_nul) = false
  /\ getAssignedWorkflows ex_assigned_nul ex_db =
     (Err (InvalidText "workflow_instances.current_assignee_id"), ex_db).
Proof.
  split; [reflexivity|].
  destruct (getAssignedWorkflows_spec ex_assigned ex_db) as (Hok & _ & _).
  destruct (getAssignedWorkflows_spec ex_assigned_nul ex_db)
    as (_ & Hnul & _).
  split.
  - destruct (Hok eq_refl) as (rows & E & P & _ & S & _).
    exists rows. split; [exact E|]. split; [exact P | exact S].
  - split; [reflexivity|]. apply Hnul. reflexivity.
Defined.
(** * Further properties of the procedures *)

(** ** Primary keys stay unique *)

Lemma fresh_keys_mono {A} (id : A -> Z) rows n m :
  n <= m -> fresh_keys id rows n -> fresh_keys id rows m.
Proof.
  intros Hle [Hnd Hlt]. split; [exact Hnd|].
  eapply Forall_impl; [|exact Hlt]. cbn. intros; lia.
Qed.

Lemma fresh_keys_snoc {A} (id : A -> Z) rows n x :
  id x = n -> fresh_keys id rows n -> fresh_keys id (rows ++ [x]) (n + 1).
Proof.
  intros Hx [Hnd Hlt]. split.
  - rewrite map_app. apply NoDup_app; [exact Hnd | |].
    + cbn. constructor; [intros [] | constructor].
    + intros a Ha [<- | []].
      apply in_map_iff in Ha. destruct Ha as (r & Hr & Hin).
      rewrite Forall_forall in Hlt. specialize (Hlt r Hin). lia.
  - apply Forall_app. split.
    + eapply Forall_impl; [|exact Hlt]. cbn. intros; lia.
    + constructor; [lia | constructor].
Qed.

Lemma fresh_keys_map {A} (id : A -> Z) (f : A -> A) rows n :
  (forall r, id (f r) = id r) ->
  fresh_keys id rows n -> fresh_keys id (map f rows) n.
Proof.
  intros Hf [Hnd Hlt]. split.
  - rewrite map_map. erewrite map_ext; [exact Hnd | exact Hf].
  - apply Forall_map. eapply Forall_impl; [|exact Hlt].
    cbn. intros r Hr. now rewrite Hf.
Qed.

Lemma fresh_keys_transition_rows date vs rows n :
  fresh_keys Transition.id rows n ->
  fresh_keys Transition.id (rows ++ transition_rows n date vs)
    (n + Z.of_nat (List.length vs)).
Proof.
  revert rows n. induction vs as [|v vs IH]; intros rows n H.
  - cbn. rewrite app_nil_r, Z.add_0_r. exact H.
  - cbn [transition_rows List.length].
    change (?r :: transition_rows (n + 1) date vs)
      with ([r] ++ transition_rows (n + 1) date vs).
    rewrite app_assoc.
    replace (n + Z.of_nat (S (List.length vs)))
      with (n + 1 + Z.of_nat (List.length vs)) by lia.
    apply IH. now apply fresh_keys_snoc.
Qed.

Lemma seqs_le_refl s : seqs_le s s.
Proof. unfold seqs_le. repeat split; lia. Qed.

Lemma seqs_le_trans a b c : seqs_le a b -> seqs_le b c -> seqs_le a c.
Proof. unfold seqs_le. intros; repeat split; lia. Qed.

(** Restoring the tables under later sequences keeps the keys. *)
Lemma keyed_rollback db s :
  keyed db -> seqs_le (seqs db) s -> keyed (mkDB (tables db) s).
Proof.
  unfold keyed, seqs_le. cbn.
  intros (H1 & H2 & H3 & H4 & H5 & H6) (L1 & L2 & L3 & L4 & L5 & L6).
  refine (conj _ (conj _ (conj _ (conj _ (conj _ _)))));
    eapply fresh_keys_mono; eassumption.
Qed.

Ltac keyed_goal Hk :=
  destruct Hk as (?K & ?K & ?K & ?K & ?K & ?K);
  unfold keyed; cbn -[Z.of_nat Z.add forallb transition_rows List.length];
  refine (conj _ (conj _ (conj _ (conj _ (conj _ _)))));
  first [ assumption
        | apply fresh_keys_snoc; [reflexivity | assumption]
        | apply fresh_keys_transition_rows; assumption
        | apply fresh_keys_map; [|assumption]
        | eapply fresh_keys_mono; [| eassumption]; cbn -[Z.of_nat Z.add forallb transition_rows List.length]; lia ].

Ltac seqs_goal :=
  unfold seqs_le; cbn -[Z.of_nat Z.add forallb transition_rows List.length]; repeat split; lia.

Ltac split_ifs :=
  repeat (match goal with
          | |- context [if ?b then _ else _] => destruct b
          end; cbn -[Z.of_nat Z.add forallb transition_rows List.length]).

Lemma keeps_ret {A} (a : A) : keeps_keys (ret a).
Proof.
  intros db r db' Hk [= <- <-]. split; [exact Hk | apply seqs_le_refl].
Qed.

Lemma keeps_throw {A} (e : Error) : keeps_keys (@throw A e).
Proof.
  intros db r db' Hk [= <- <-]. split; [exact Hk | apply seqs_le_refl].
Qed.

Lemma keeps_query {A} (q : DB -> A) : keeps_keys (query q).
Proof.
  intros db r db' Hk [= <- <-]. split; [exact Hk | apply seqs_le_refl].
Qed.

Lemma keeps_bind_values checks : keeps_keys (bind_values checks).
Proof.
  intros db r db' Hk. rewrite bind_values_run.
  destruct (first_refusal checks); intros [= <- <-];
    (split; [exact Hk | apply seqs_le_refl]).
Qed.

Lemma keeps_with_relation r : keeps_keys (with_relation r).
Proof.
  unfold with_relation.
  destruct (Schema.normalizeRelation Schema.relations r);
    [apply keeps_throw | apply keeps_ret].
Qed.

Lemma keeps_bind {A B} (m : Tx A) (k : A -> Tx B) :
  keeps_keys m -> (forall a, keeps_keys (k a)) -> keeps_keys (bind m k).
Proof.
  intros Hm Hk db r db' Hdb. unfold bind.
  destruct (m db) as [[a|e] db1] eqn:E.
  - intros Hrun. destruct (Hm _ _ _ Hdb E) as [H1 L1].
    destruct (Hk a _ _ _ H1 Hrun) as [H2 L2].
    split; [exact H2 | eapply seqs_le_trans; eassumption].
  - intros [= <- <-]. exact (Hm _ _ _ Hdb E).
Qed.

Lemma keeps_transaction {A} (body : Tx A) :
  keeps_keys body -> keeps_keys (transaction body).
Proof.
  intros Hb db r db' Hdb. unfold transaction.
  destruct (body db) as [[a|e] db1] eqn:E; intros [= <- <-];
    destruct (Hb _ _ _ Hdb E) as [H1 L1].
  - split; assumption.
  - split; [now apply keyed_rollback | exact L1].
Qed.

Lemma keeps_mapM {A B} (f : A -> Tx B) (xs : list A) :
  (forall x, keeps_keys (f x)) -> keeps_keys (mapM f xs).
Proof.
  intros Hf. induction xs as [|x xs IH]; cbn [mapM].
  - apply keeps_ret.
  - apply keeps_bind; [apply Hf|]. intros y.
    apply keeps_bind; [exact IH|]. intros ys. apply keeps_ret.
Qed.

Lemma keeps_insert_template now name description :
  keeps_keys (insert_template now name description).
Proof.
  unfold insert_template. apply keeps_bind; [apply keeps_bind_values|].
  intros _ db r db' Hk. unfold next_template_id. run_tx.
  intros [= <- <-]. split; [keyed_goal Hk | seqs_goal].
Qed.

Lemma keeps_insert_step now tid v : keeps_keys (insert_step now tid v).
Proof.
  unfold insert_step. apply keeps_bind; [apply keeps_bind_values|].
  intros _ db r db' Hk. unfold next_step_id. run_tx.
  split_ifs; intros [= <- <-]; (split; [keyed_goal Hk | seqs_goal]).
Qed.

Lemma transition_references_db vs db r db' :
  mapM transition_references vs db = (r, db') -> db' = db.
Proof.
  destruct (transition_references_run vs db)
    as [[_ (us & E)] | [_ (c & E)]]; rewrite E; now intros [= _ <-].
Qed.

Lemma keeps_insert_transitions date vs :
  keeps_keys (insert_transitions date vs).
Proof.
  unfold insert_transitions.
  destruct vs as [|v vs]; [apply keeps_throw|].
  apply keeps_bind; [apply keeps_bind_values|].
  intros _ db r db' Hk. unfold bind at 1, next_transition_ids, nextval.
  unfold bind at 1.
  destruct (mapM transition_references (v :: vs) _) as [[us|e] d] eqn:E;
    apply transition_references_db in E; subst d;
    intros [= <- <-]; (split; [|seqs_goal]).
  all: destruct Hk as (K1 & K2 & K3 & K4 & K5 & K6); unfold keyed; cbn;
    refine (conj _ (conj _ (conj _ (conj _ (conj _ _))))); try assumption.
  - exact (fresh_keys_transition_rows date (v :: vs) _ _ K3).
  - eapply fresh_keys_mono; [|exact K3]. lia.
Qed.

Lemma keeps_insert_instance now tid sid a et ei st :
  keeps_keys (insert_instance now tid sid a et ei st).
Proof.
  unfold insert_instance. apply keeps_bind; [apply keeps_bind_values|].
  intros _ db r db' Hk. unfold next_instance_id. run_tx.
  split_ifs; try destruct a; split_ifs; intros [= <- <-];
    (split; [keyed_goal Hk | seqs_goal]).
Qed.

Lemma keeps_insert_assignment now iid sid uid st :
  keeps_keys (insert_assignment now iid sid uid st).
Proof.
  unfold insert_assignment. apply keeps_bind; [apply keeps_bind_values|].
  intros _ db r db' Hk. unfold next_assignment_id. run_tx.
  split_ifs; intros [= <- <-]; (split; [keyed_goal Hk | seqs_goal]).
Qed.

Lemma keeps_insert_action now iid sid uid a c d :
  keeps_keys (insert_action now iid sid uid a c d).
Proof.
  unfold insert_action. apply keeps_bind; [apply keeps_bind_values|].
  intros _ db r db' Hk. unfold next_action_id. run_tx.
  split_ifs; intros [= <- <-]; (split; [keyed_goal Hk | seqs_goal]).
Qed.

Lemma keeps_createWorkflowTemplate now date input :
  keeps_keys (createWorkflowTemplate now date input).
Proof.
  unfold createWorkflowTemplate. apply keeps_transaction.
  apply keeps_bind; [apply keeps_insert_template|]. intros [|t rows];
    [apply keeps_throw|].
  apply keeps_bind.
  { apply keeps_mapM. intros v.
    apply keeps_bind; [apply keeps_insert_step|]. intros r. apply keeps_ret. }
  intros steps. apply keeps_bind; [|intros _; apply keeps_ret].
  destruct (0 <? _); [apply keeps_insert_transitions | apply keeps_ret].
Qed.

Lemma keeps_startWorkflow now input : keeps_keys (startWorkflow now input).
Proof.
  unfold startWorkflow. apply keeps_transaction.
  apply keeps_bind.
  { unfold template_with_entry_step.
    apply keeps_bind; [apply keeps_with_relation|]. intros _.
    apply keeps_bind; [apply keeps_bind_values|]. intros _.
    apply keeps_query. }
  intros [[t steps]|]; [|apply keeps_throw].
  destruct (_ =? 0); [apply keeps_throw|].
  destruct (nth_error steps 0) as [s|]; [|apply keeps_throw].
  apply keeps_bind.
  { unfold user_role_with_user.
    apply keeps_bind; [apply keeps_with_relation|]. intros _.
    apply keeps_query. }
  intros e.
  destruct (user_of e) as [u|]; [|apply keeps_throw].
  apply keeps_bind; [apply keeps_insert_instance|]. intros [|i rows];
    [apply keeps_throw|].
  apply keeps_bind; [apply keeps_insert_assignment|]. intros _.
  apply keeps_ret.
Qed.

Lemma keeps_getAssignedWorkflows input :
  keeps_keys (getAssignedWorkflows input).
Proof.
  unfold getAssignedWorkflows.
  repeat (apply keeps_bind; [apply keeps_with_relation|]; intros _).
  apply keeps_bind; [apply keeps_bind_values|]. intros _.
  apply keeps_query.
Qed.

Lemma keeps_takeActionWith hR hA now input :
  (forall i target, keeps_keys (hR i target)) ->
  (forall i ts, keeps_keys (hA i ts)) ->
  keeps_keys (takeActionWith hR hA now input).
Proof.
  intros HR HA. unfold takeActionWith. apply keeps_transaction.
  apply keeps_bind.
  { unfold instance_with_current_step.
    apply keeps_bind; [apply keeps_with_relation|]. intros _.
    apply keeps_bind; [apply keeps_with_relation|]. intros join.
    apply keeps_bind; [apply keeps_bind_values|]. intros _.
    apply keeps_query. }
  intros [loaded|]; [|apply keeps_throw].
  cbv zeta. destruct (negb _); [apply keeps_throw|].
  apply keeps_bind; [apply keeps_insert_action|]. intros _.
  destruct (if is_REJECT _ then _ else _); [apply HR|].
  destruct (is_APPROVE _); [apply HA | apply keeps_ret].
Qed.

(** X3. On a store whose primary keys are pairwise different and below
    the next values of their sequences, every procedure leaves such a
    store, whether it answers or fails, and moves no sequence back;
    [takeAction] does so with any handlers that do. *)
Theorem procedures_keep_keys now date create start action assigned :
  keeps_keys (createWorkflowTemplate now date create)
  /\ keeps_keys (startWorkflow now start)
  /\ keeps_keys (getAssignedWorkflows assigned)
  /\ forall hR hA,
       (forall i target, keeps_keys (hR i target)) ->
       (forall i ts, keeps_keys (hA i ts)) ->
       keeps_keys (takeActionWith hR hA now action).
Proof.
  split; [apply keeps_createWorkflowTemplate|].
  split; [apply keeps_startWorkflow|].
  split; [apply keeps_getAssignedWorkflows|].
  intros hR hA. apply keeps_takeActionWith.
Qed.

(** ** Reading back what was stored *)

Lemma fresh_keys_not_found {A} (id : A -> Z) rows n k :
  fresh_keys id rows n -> n <= k -> find (fun r => id r =? k) rows = None.
Proof.
  intros [_ Hlt] Hk. induction rows as [|r rows IH]; [reflexivity|].
  inversion Hlt as [|? ? Hr Hrest]; subst. cbn.
  assert ((id r =? k) = false) as -> by (apply Z.eqb_neq; lia).
  now apply IH.
Qed.

Lemma find_step_rows now tid vs rows n k v :
  fresh_keys Step.id rows n ->
  nth_error vs k = Some v ->
  exists row,
    find (fun s => Step.id s =? n + Z.of_nat k)
      (rows ++ step_rows now tid n vs) = Some row
    /\ Step.id row = n + Z.of_nat k
    /\ Step.workflowTemplateId row = tid
    /\ Step.createdAt row = now
    /\ step_values row = stored_step v.
Proof.
  revert rows n k. induction vs as [|x vs IH]; intros rows n k Hf Hk.
  - destruct k; discriminate.
  - cbn [step_rows].
    destruct k as [|k].
    + injection Hk as ->.
      replace (n + Z.of_nat 0) with n by lia.
      eexists. split.
      * rewrite find_app_none.
        -- cbn [find Step.id]. now rewrite Z.eqb_refl.
        -- eapply fresh_keys_not_found; [exact Hf | lia].
      * repeat split; reflexivity.
    + cbn in Hk.
      change (?r :: step_rows now tid (n + 1) vs)
        with ([r] ++ step_rows now tid (n + 1) vs).
      rewrite app_assoc.
      replace (n + Z.of_nat (S k)) with (n + 1 + Z.of_nat k) by lia.
      apply IH; [|exact Hk]. now apply fresh_keys_snoc.
Qed.

Lemma substring_all s n :
  (String.length s <= n)%nat -> String.substring 0 n s = s.
Proof.
  revert n. induction s as [|c s IH]; intros n Hn.
  - now destruct n.
  - destruct n as [|n]; cbn in Hn; [lia|].
    cbn. rewrite IH; [reflexivity | lia].
Qed.

(** A value within the length of its column is stored as it is. *)
Lemma clip_short n s : (String.length s <= n)%nat -> clip n s = s.
Proof. apply substring_all. Qed.

(** X4. On a store with proper keys, a template that
    [createWorkflowTemplate] answers with is found again under its
    identity, active and with the name and description given, the name as
    the column keeps it: as supplied when it has at most 255 characters,
    cut to 255 when only blanks exceed them; the k-th supplied step is
    found under the k-th identity drawn from the sequence, belongs to the
    template and carries the supplied values, its name kept the same way;
    and every template and step found before is still found. *)
Theorem createWorkflowTemplate_read_back now date input db t db' :
  keyed db ->
  createWorkflowTemplate now date input db = (Ok t, db') ->
  find_template db' (Template.id t) = Some t
  /\ Template.name t = clip 255 (CreateInput.name input)
  /\ ((String.length (CreateInput.name input) <= 255)%nat ->
      Template.name t = CreateInput.name input)
  /\ Template.description t = Some (CreateInput.description input)
  /\ Template.isActive t = true
  /\ (forall k v,
        nth_error (CreateInput.steps input) k = Some v ->
        exists row,
          find_step db' (steps_seq (seqs db) + Z.of_nat k) = Some row
          /\ Step.workflowTemplateId row = Template.id t
          /\ step_values row = stored_step v
          /\ ((String.length (NewStep.name v) <= 255)%nat ->
              step_values row = v))
  /\ (forall k x, find_template db k = Some x -> find_template db' k = Some x)
  /\ (forall k x, find_step db k = Some x -> find_step db' k = Some x).
Proof.
  intros Hk H.
  apply createWorkflowTemplate_ok_inv in H. destruct H as (-> & -> & _).
  destruct Hk as (K1 & K2 & _).
  assert (Htables :
            workflowTemplates (tables (created now date input db)) =
            workflowTemplates (tables db) ++ [created_template now input db]
            /\ workflowSteps (tables (created now date input db)) =
               workflowSteps (tables db)
               ++ step_rows now (templates_seq (seqs db))
                    (steps_seq (seqs db)) (CreateInput.steps input)).
  { unfold created, with_template_and_steps.
    destruct (CreateInput.steps input); cbn; split; reflexivity. }
  destruct Htables as [Ht Hs].
  unfold find_template, find_step. rewrite Ht, Hs.
  split; [|split; [reflexivity | split; [|split; [reflexivity | split;
    [reflexivity | split; [|split]]]]]].
  - rewrite find_app_none.
    + cbn. now rewrite Z.eqb_refl.
    + eapply fresh_keys_not_found; [exact K1 | cbn; lia].
  - intros Hlen. cbn. now apply clip_short.
  - intros k v Hv.
    destruct (find_step_rows now (templates_seq (seqs db))
                (CreateInput.steps input) _ _ k v K2 Hv)
      as (row & Hfind & _ & Htid & _ & Hval).
    exists row. split; [exact Hfind|]. split; [exact Htid|].
    split; [exact Hval|].
    intros Hlen. rewrite Hval. unfold stored_step.
    rewrite (clip_short _ _ Hlen). now destruct v.
  - intros k x. apply find_app_some.
  - intros k x. apply find_app_some.
Qed.

(** ** When [createWorkflowTemplate] succeeds *)






(** X6. Three throws of the router are never reached: a failing
    [createWorkflowTemplate] never fails with "Workflow template not
    created", and a failing [startWorkflow] never fails with "Workflow
    template has no first step" nor with "instance not found". *)
Theorem creating_procedures_dead_throws now date create start db :
  (forall e db',
     createWorkflowTemplate now date create db = (Err e, db') ->
     e <> WorkflowTemplateNotCreated)
  /\ (forall e db',
        startWorkflow now start db = (Err e, db') ->
        e <> TemplateHasNoFirstStep /\ e <> InstanceNotCreated).
Proof.
  split.
  - intros e db' H.
    pose proof (createWorkflowTemplate_cases now date create db) as Hc.
    destruct (create_accepted now create db).
    + rewrite Hc in H. discriminate.
    + destruct Hc as (e' & d & E & _ & He & _).
      rewrite E in H. injection H as <- _.
      destruct He as [[-> _] | He]; [discriminate|].
      intros ->. discriminate.
  - intros e db'. rewrite startWorkflow_cases.
    destruct (is_int4 _); [|intros [= <- _]; split; discriminate].
    destruct (find_template db _) as [t|];
      [|intros [= <- _]; split; discriminate].
    destruct (entry_step db _) as [s|];
      [|intros [= <- _]; split; discriminate].
    destruct (user_of _) as [u|]; [|intros [= <- _]; split; discriminate].
    destruct (first_refusal _) as [e'|] eqn:Hf; [|discriminate].
    intros [= <- _]. apply instance_refusals_store in Hf.
    split; intros ->; discriminate.
Qed.

(** ** From [startWorkflow] to the other procedures *)

Lemma filter_snoc {A} (p : A -> bool) (l : list A) (x : A) :
  filter p (l ++ [x]) = filter p l ++ (if p x then [x] else []).
Proof. rewrite filter_app. cbn. now destruct (p x). Qed.

(** X7. After a successful [startWorkflow] the new instance is on the
    work lists it matches (those of its assignee, asked without status or
    for [ACTIVE]): such a list holds the instances it held before and the
    new one.  Every other work list is answered exactly as before. *)
Theorem startWorkflow_then_getAssignedWorkflows now input db i db' :
  startWorkflow now input db = (Ok i, db') ->
  (exists u,
     Instance.currentAssigneeId i = Some u
     /\ forall asked,
          assigned_to asked i = true <->
          AssignedInput.userId asked = u
          /\ (AssignedInput.status asked = None
              \/ AssignedInput.status asked = Some Instance.ACTIVE))
  /\ (forall asked,
        assigned_to asked i = true ->
        exists rows rows',
          getAssignedWorkflows asked db = (Ok rows, db)
          /\ getAssignedWorkflows asked db' = (Ok rows', db')
          /\ Permutation (map AssignedRow.instance rows')
               (i :: map AssignedRow.instance rows))
  /\ (forall asked,
        assigned_to asked i = false ->
        fst (getAssignedWorkflows asked db') =
        fst (getAssignedWorkflows asked db)).
Proof.
  intros H. apply startWorkflow_ok_inv in H.
  destruct H as (t & s & u & _ & Ht & Hs & Hu & Hfit & -> & ->).
  set (i := started_instance now input t s u db).
  assert (Htext : text_ok (User.id u) = true).
  { unfold instance_fits in Hfit. rewrite !andb_true_iff in Hfit.
    apply Hfit. }
  split; [|split].
  - exists (User.id u). split; [reflexivity|].
    intros asked. rewrite assigned_to_true. cbn.
    split.
    + intros [[= E] Hst]. split; [now symmetry|].
      destruct (AssignedInput.status asked) as [st|]; [|now left].
      right. now subst.
    + intros [-> [-> | ->]]; auto.
  - intros asked Hm.
    assert (Hasked : text_ok (AssignedInput.userId asked) = true).
    { apply assigned_to_true in Hm. destruct Hm as [[= Hm] _].
      now rewrite <- Hm. }
    rewrite !getAssignedWorkflows_run, Hasked. eexists; eexists.
    split; [reflexivity|]. split; [reflexivity|].
    rewrite !map_map. cbn [AssignedRow.instance with_relations].
    rewrite !map_id.
    cbn [workflowInstances tables started set_assignments set_instances
           set_seqs].
    rewrite filter_snoc. fold i. rewrite Hm.
    rewrite sort_by_perm, sort_by_perm.
    rewrite Permutation_app_comm. reflexivity.
  - intros asked Hm. rewrite !getAssignedWorkflows_run.
    destruct (text_ok (AssignedInput.userId asked)); [|reflexivity].
    cbn [fst workflowInstances tables started set_assignments set_instances
           set_seqs].
    rewrite filter_snoc. fold i. rewrite Hm, app_nil_r.
    reflexivity.
Qed.

(** ** From [createWorkflowTemplate] to [startWorkflow] *)

Lemma first_entry_step_rows now tid n vs k v :
  nth_error vs k = Some v ->
  NewStep.stepOrder v = 1 ->
  (forall j v', (j < k)%nat -> nth_error vs j = Some v' ->
                NewStep.stepOrder v' <> 1) ->
  exists row,
    find (is_entry_step tid) (step_rows now tid n vs) = Some row
    /\ Step.id row = n + Z.of_nat k
    /\ Step.roleId row = NewStep.roleId v.
Proof.
  revert n k. induction vs as [|x vs IH]; intros n k Hk Hv Hbefore.
  - destruct k; discriminate.
  - cbn [step_rows find]. unfold is_entry_step at 1.
    cbn [Step.workflowTemplateId Step.stepOrder]. rewrite Z.eqb_refl.
    destruct k as [|k].
    + injection Hk as ->. rewrite Hv. cbn.
      eexists. split; [reflexivity|]. cbn. split; [lia | reflexivity].
    + assert (Hx : NewStep.stepOrder x <> 1)
        by (apply (Hbefore 0%nat x); [lia | reflexivity]).
      apply Z.eqb_neq in Hx. rewrite Hx. cbn [andb].
      destruct (IH (n + 1) k Hk Hv) as (row & Hf & Hid & Hrole).
      { intros j v' Hj Hn. apply (Hbefore (S j) v'); [lia | exact Hn]. }
      exists row. split; [exact Hf|]. split; [lia | exact Hrole].
Qed.

Lemma find_none_all {A} (p : A -> bool) (l : list A) :
  Forall (fun x => p x = false) l -> find p l = None.
Proof.
  induction 1 as [|x l Hx _ IH]; cbn; [reflexivity|]. now rewrite Hx.
Qed.

(** X9. On a store with proper keys whose steps all belong to a template
    of the store, a template that [createWorkflowTemplate] answers with
    can be started at once: when its identity is in the 32-bit range, the
    first supplied step of order 1 is the k-th, a user holds its role and
    the store takes the identity of that user and the entity type and
    identity, [startWorkflow] on the
    new template answers with an [ACTIVE] instance of that template at
    the k-th step created, assigned to the first holder found. *)
Theorem createWorkflowTemplate_then_startWorkflow
    now date create db t db' k v holder later entityType entityId :
  keyed db ->
  steps_belong db ->
  createWorkflowTemplate now date create db = (Ok t, db') ->
  is_int4 (Template.id t) = true ->
  nth_error (CreateInput.steps create) k = Some v ->
  NewStep.stepOrder v = 1 ->
  (forall j v', (j < k)%nat ->
                nth_error (CreateInput.steps create) j = Some v' ->
                NewStep.stepOrder v' <> 1) ->
  user_of (first_user_role (NewStep.roleId v) db) = Some holder ->
  instance_fits (Some (User.id holder)) entityType entityId = true ->
  exists i db'',
    startWorkflow later (StartInput.mk (Template.id t) entityType entityId)
      db' = (Ok i, db'')
    /\ Instance.workflowTemplateId i = Template.id t
    /\ Instance.currentStepId i = steps_seq (seqs db) + Z.of_nat k
    /\ Instance.currentAssigneeId i = Some (User.id holder)
    /\ Instance.status i = Instance.ACTIVE.
Proof.
  intros Hk Hb H Hrange Hv Hone Hfirst Hh Hfit.
  apply createWorkflowTemplate_ok_inv in H. destruct H as (-> & -> & _).
  set (t := created_template now create db) in *.
  set (db' := created now date create db).
  assert (Htables :
            workflowTemplates (tables db') = workflowTemplates (tables db) ++ [t]
            /\ workflowSteps (tables db') =
               workflowSteps (tables db)
               ++ step_rows now (Template.id t) (steps_seq (seqs db))
                    (CreateInput.steps create)
            /\ users (tables db') = users (tables db)
            /\ userRoles (tables db') = userRoles (tables db)).
  { unfold db', created, with_template_and_steps.
    destruct (CreateInput.steps create); cbn; repeat split; reflexivity. }
  destruct Htables as (Ht & Hs & Hus & Hur).
  destruct Hk as (K1 & _).
  assert (Hfind : find_template db' (Template.id t) = Some t).
  { unfold find_template. rewrite Ht. rewrite find_app_none.
    - cbn. now rewrite Z.eqb_refl.
    - eapply fresh_keys_not_found; [exact K1 | cbn; lia]. }
  assert (Hold : find (is_entry_step (Template.id t))
                   (workflowSteps (tables db)) = None).
  { apply find_none_all. eapply Forall_impl; [|exact Hb].
    cbn. intros s Hs'. unfold is_entry_step.
    apply andb_false_iff. left. apply Z.eqb_neq. intros E.
    unfold template_exists in Hs'. rewrite E in Hs'.
    unfold find_template in Hs'.
    rewrite (fresh_keys_not_found Template.id _ _ _ K1) in Hs';
      [discriminate | cbn; lia]. }
  destruct (first_entry_step_rows now (Template.id t) (steps_seq (seqs db))
              (CreateInput.steps create) k v Hv Hone Hfirst)
    as (row & Hnew & Hid & Hrole).
  assert (Hentry : entry_step db' (Template.id t) = Some row).
  { unfold entry_step. rewrite Hs, (find_app_none _ _ _ Hold). exact Hnew. }
  assert (Hh' : user_of (first_user_role (Step.roleId row) db') = Some holder).
  { rewrite Hrole. unfold first_user_role, find_user. rewrite Hur, Hus.
    exact Hh. }
  rewrite startWorkflow_cases. cbn [StartInput.templateId
    StartInput.entityType StartInput.entityId].
  rewrite Hrange, Hfind, Hentry, Hh'.
  apply instance_refusals_fits in Hfit. rewrite Hfit.
  eexists; eexists. split; [reflexivity|].
  cbn. repeat split. exact Hid.
Qed.

(** ** What the procedures leave alone *)

(** X10. [createWorkflowTemplate] and [startWorkflow] only append rows,
    whether they answer or fail: the first leaves users, roles, role
    memberships, instances, assignments and the audit log as they were
    and extends templates, steps and transitions at their end; the second
    leaves users, roles, role memberships, templates, steps, transitions
    and the audit log as they were and extends instances and assignments
    at their end. *)
Theorem creating_procedures_only_append now date create start db :
  (forall r db',
     createWorkflowTemplate now date create db = (r, db') ->
     users (tables db') = users (tables db)
     /\ roles (tables db') = roles (tables db)
     /\ userRoles (tables db') = userRoles (tables db)
     /\ workflowInstances (tables db') = workflowInstances (tables db)
     /\ workflowStepAssignments (tables db') =
        workflowStepAssignments (tables db)
     /\ workflowActions (tables db') = workflowActions (tables db)
     /\ exists ts ss trs,
          workflowTemplates (tables db') = workflowTemplates (tables db) ++ ts
          /\ workflowSteps (tables db') = workflowSteps (tables db) ++ ss
          /\ workflowStepTransitions (tables db') =
             workflowStepTransitions (tables db) ++ trs)
  /\ (forall r db',
        startWorkflow now start db = (r, db') ->
        users (tables db') = users (tables db)
        /\ roles (tables db') = roles (tables db)
        /\ userRoles (tables db') = userRoles (tables db)
        /\ workflowTemplates (tables db') = workflowTemplates (tables db)
        /\ workflowSteps (tables db') = workflowSteps (tables db)
        /\ workflowStepTransitions (tables db') =
           workflowStepTransitions (tables db)
        /\ workflowActions (tables db') = workflowActions (tables db)
        /\ exists insts asg,
             workflowInstances (tables db') =
             workflowInstances (tables db) ++ insts
             /\ workflowStepAssignments (tables db') =
                workflowStepAssignments (tables db) ++ asg).
Proof.
  split.
  - intros [t|e] db' H.
    + apply createWorkflowTemplate_ok_inv in H. destruct H as (_ & -> & _).
      unfold created, with_template_and_steps.
      destruct (CreateInput.steps create); cbn;
        repeat (split; [reflexivity|]);
        eexists; eexists; eexists; repeat split;
        try reflexivity; symmetry; apply app_nil_r.
    + apply createWorkflowTemplate_err_inv in H. rewrite H.
      repeat (split; [reflexivity|]).
      exists [], [], []. now rewrite !app_nil_r.
  - intros [i|e] db' H.
    + apply startWorkflow_ok_inv in H.
      destruct H as (t & s & u & _ & _ & _ & _ & _ & _ & ->). cbn.
      repeat (split; [reflexivity|]). eexists; eexists. split; reflexivity.
    + apply startWorkflow_err_inv in H. subst db'.
      repeat (split; [reflexivity|]). exists [], [].
      now rewrite !app_nil_r.
Qed.

(** ** [startWorkflow] does not look at the active flag *)

Lemma find_template_with_activity flag db k :
  find_template (with_activity flag db) k =
  option_map (fun t =>
                Template.mk (Template.id t) (Template.name t)
                  (Template.description t) (flag t) (Template.createdAt t))
    (find_template db k).
Proof.
  unfold find_template, with_activity. cbn.
  induction (workflowTemplates (tables db)) as [|t l IH]; cbn;
    [reflexivity|].
  destruct (Template.id t =? k); [reflexivity | exact IH].
Qed.

(** X11. [startWorkflow] answers alike whatever the active flags of the
    templates are: the same instance or the same error.  A template that
    is not active is started like an active one. *)
Theorem startWorkflow_ignores_isActive flag now input db :
  fst (startWorkflow now input (with_activity flag db)) =
  fst (startWorkflow now input db).
Proof.
  rewrite !startWorkflow_cases.
  destruct (is_int4 _); [|reflexivity].
  rewrite find_template_with_activity.
  change (entry_step (with_activity flag db) (StartInput.templateId input))
    with (entry_step db (StartInput.templateId input)).
  destruct (find_template db (StartInput.templateId input)) as [t|];
    cbn [option_map]; [|reflexivity].
  destruct (entry_step db _) as [s|]; [|reflexivity].
  change (first_user_role (Step.roleId s) (with_activity flag db))
    with (first_user_role (Step.roleId s) db).
  destruct (user_of _) as [u|]; [|reflexivity].
  destruct (first_refusal _); reflexivity.
Qed.

(** ** [startWorkflow] again *)

(** X12. [startWorkflow] does not look for an instance of the entity: the
    request that succeeded succeeds again on the store it left, and
    answers with a second [ACTIVE] instance for the same entity, at the
    same step, with the same assignee, under the next identity. *)
Theorem startWorkflow_twice now input db i db' later :
  startWorkflow now input db = (Ok i, db') ->
  exists i2 db'',
    startWorkflow later input db' = (Ok i2, db'')
    /\ Instance.id i2 = Instance.id i + 1
    /\ Instance.workflowTemplateId i2 = Instance.workflowTemplateId i
    /\ Instance.currentStepId i2 = Instance.currentStepId i
    /\ Instance.currentAssigneeId i2 = Instance.currentAssigneeId i
    /\ Instance.entityType i2 = Instance.entityType i
    /\ Instance.entityId i2 = Instance.entityId i
    /\ Instance.status i2 = Instance.ACTIVE
    /\ workflowInstances (tables db'') =
       workflowInstances (tables db) ++ [i; i2].
Proof.
  intros H. apply startWorkflow_ok_inv in H.
  destruct H as (t & s & u & Hr & Ht & Hs & Hu & Hfit & -> & ->).
  rewrite startWorkflow_cases. rewrite Hr.
  change (find_template (started now input t s u db)
            (StartInput.templateId input))
    with (find_template db (StartInput.templateId input)).
  change (entry_step (started now input t s u db)
            (StartInput.templateId input))
    with (entry_step db (StartInput.templateId input)).
  rewrite Ht, Hs.
  change (first_user_role (Step.roleId s) (started now input t s u db))
    with (first_user_role (Step.roleId s) db).
  rewrite Hu.
  apply instance_refusals_fits in Hfit. rewrite Hfit.
  eexists; eexists. split; [reflexivity|].
  cbn. rewrite <- app_assoc. repeat split.
Qed.

(** ** Which handler a call can reach *)


(** ** Every [takeAction] call fails *)

(** X14. Whatever the request, the store and the two functions
    [takeAction] calls, the call fails at its first query with "There is
    not enough information to infer relation
    workflowSteps.fromTransitions" and leaves the store as it was: the
    relation [fromTransitions] is declared for the steps and nothing is
    declared for the transitions that points back.  The relations the
    other procedures ask for resolve; and [fromTransitions] would resolve,
    to the column [from_step_id], were a relation of that name declared
    for the transitions on that column. *)
Theorem takeAction_always_fails hR hA now input db :
  takeActionWith hR hA now input db =
  (Err (RelationNotInferred "workflowSteps.fromTransitions"), db)
  /\ takeAction now input db =
     (Err (RelationNotInferred "workflowSteps.fromTransitions"), db)
  /\ filter (fun r => Schema.table_eqb (Schema.sourceTable r)
                        Schema.workflowStepTransitions) Schema.relations = []
  /\ Forall (fun r =>
               exists join,
                 Schema.normalizeRelation Schema.relations r = inr join)
       [ Schema.workflowTemplates_steps; Schema.userRoles_user;
         Schema.workflowInstances_template;
         Schema.workflowInstances_currentStep;
         Schema.workflowInstances_currentAssignee ]
  /\ Schema.normalizeRelation
       (Schema.relations
        ++ [Schema.mk Schema.workflowStepTransitions "fromStep"
              Schema.workflowSteps true (Some ("from_step_id", "id"))
              (Some "fromTransitions")])
       Schema.workflowSteps_fromTransitions = inr ("id", "from_step_id").
Proof.
  split; [apply takeActionWith_run|]. split; [apply takeAction_run|].
  split; [reflexivity|]. split; [|reflexivity].
  repeat (constructor; [eexists; reflexivity|]). constructor.
Qed.

(** * The further properties on the example store *)

Lemma ex_db_keyed : keyed ex_db.
Proof.
  unfold keyed, fresh_keys. cbn.
  repeat split;
    repeat (constructor; [cbn; first [lia | intuition discriminate]|]);
    constructor.
Qed.

Lemma ex_db_steps_belong : steps_belong ex_db.
Proof. unfold steps_belong. cbn. repeat constructor. Qed.

(** X3 on the example: the store after the template request has proper
    keys. *)
Lemma procedures_keep_keys_witness :
  keyed (created 20 21 ex_create ex_db)
  /\ seqs_le (seqs ex_db) (seqs (created 20 21 ex_create ex_db)).
Proof.
  apply (proj1 (procedures_keep_keys 20 21 ex_create ex_start ex_modify
                  ex_assigned)
           ex_db (Ok (created_template 20 ex_create ex_db))).
  - exact ex_db_keyed.
  - reflexivity.
Defined.

(** X4 on the example: template 4 and its steps 6 and 7 are read back;
    and a name of 255 characters and a blank is accepted and read back
    without the blank. *)
Lemma createWorkflowTemplate_read_back_witness :
  let t := created_template 20 ex_create ex_db in
  let db' := created 20 21 ex_create ex_db in
  (createWorkflowTemplate 20 21 ex_create_padded ex_db =
   (Ok (created_template 20 ex_create_padded ex_db),
    created 20 21 ex_create_padded ex_db)
   /\ Template.name (created_template 20 ex_create_padded ex_db) =
      clip 255 (CreateInput.name ex_create_padded)
   /\ String.length (CreateInput.name ex_create_padded) = 256%nat
   /\ String.length (clip 255 (CreateInput.name ex_create_padded)) = 255%nat)
  /\ find_template db' (Template.id t) = Some t
  /\ Template.name t = clip 255 (CreateInput.name ex_create)
  /\ ((String.length (CreateInput.name ex_create) <= 255)%nat ->
      Template.name t = CreateInput.name ex_create)
  /\ Template.description t = Some (CreateInput.description ex_create)
  /\ Template.isActive t = true
  /\ (forall k v,
        nth_error (CreateInput.steps ex_create) k = Some v ->
        exists row,
          find_step db' (steps_seq (seqs ex_db) + Z.of_nat k) = Some row
          /\ Step.workflowTemplateId row = Template.id t
          /\ step_values row = stored_step v
          /\ ((String.length (NewStep.name v) <= 255)%nat ->
              step_values row = v))
  /\ (forall k x,
        find_template ex_db k = Some x -> find_template db' k = Some x)
  /\ (forall k x, find_step ex_db k = Some x -> find_step db' k = Some x).
Proof.
  split.
  - split; [reflexivity|]. split; [|split; reflexivity].
    exact (proj1 (proj2 (createWorkflowTemplate_read_back 20 21
                           ex_create_padded ex_db _ _ ex_db_keyed eq_refl))).
  - apply (createWorkflowTemplate_read_back 20 21 ex_create ex_db).
    + exact ex_db_keyed.
    + reflexivity.
Defined.


(** X6 on the example: the request naming role 7 and the start of
    template 9 fail with other errors. *)
Lemma creating_procedures_dead_throws_witness :
  ForeignKeyViolation "workflow_steps.role_id" <> WorkflowTemplateNotCreated
  /\ TemplateNotFoundOrNoSteps <> TemplateHasNoFirstStep
  /\ TemplateNotFoundOrNoSteps <> InstanceNotCreated.
Proof.
  split.
  - exact (proj1 (creating_procedures_dead_throws 20 21 ex_create_no_role
                    ex_start_missing ex_db) _ _ eq_refl).
  - exact (proj2 (creating_procedures_dead_throws 20 21 ex_create_no_role
                    ex_start_missing ex_db) _ _ eq_refl).
Defined.

(** X7 on the example: after the start of template 1 the new instance is
    on the list of active work of user u1. *)
Lemma startWorkflow_then_getAssignedWorkflows_witness :
  let i := started_instance 20 ex_start ex_t1 ex_s1 ex_u1 ex_db in
  let db' := started 20 ex_start ex_t1 ex_s1 ex_u1 ex_db in
  exists rows rows',
    getAssignedWorkflows ex_assigned ex_db = (Ok rows, ex_db)
    /\ getAssignedWorkflows ex_assigned db' = (Ok rows', db')
    /\ Permutation (map AssignedRow.instance rows')
         (i :: map AssignedRow.instance rows).
Proof.
  apply (proj1 (proj2 (startWorkflow_then_getAssignedWorkflows 20 ex_start
                         ex_db _ _ eq_refl))).
  reflexivity.
Defined.

(** X9 on the example: the template of the linked request starts at its
    first step, identity 6, with user u1. *)
Lemma createWorkflowTemplate_then_startWorkflow_witness :
  exists i db'',
    startWorkflow 30 (StartInput.mk 4 "leave" 7)
      (created 20 21 ex_create_linked ex_db) = (Ok i, db'')
    /\ Instance.workflowTemplateId i = 4
    /\ Instance.currentStepId i = 6
    /\ Instance.currentAssigneeId i = Some "u1"
    /\ Instance.status i = Instance.ACTIVE.
Proof.
  apply (createWorkflowTemplate_then_startWorkflow 20 21 ex_create_linked
           ex_db (created_template 20 ex_create_linked ex_db)
           (created 20 21 ex_create_linked ex_db) 0
           (NewStep.mk "ask" 1 1 true false None) ex_u1 30 "leave" 7).
  - exact ex_db_keyed.
  - exact ex_db_steps_belong.
  - reflexivity.
  - reflexivity.
  - reflexivity.
  - reflexivity.
  - intros j v' Hj. inversion Hj.
  - reflexivity.
  - reflexivity.
Defined.

(** X10 on the example: the template request leaves the instances and
    the audit log alone and extends the steps. *)
Lemma creating_procedures_only_append_witness :
  let db' := created 20 21 ex_create ex_db in
  users (tables db') = users (tables ex_db)
  /\ roles (tables db') = roles (tables ex_db)
  /\ userRoles (tables db') = userRoles (tables ex_db)
  /\ workflowInstances (tables db') = workflowInstances (tables ex_db)
  /\ workflowStepAssignments (tables db') =
     workflowStepAssignments (tables ex_db)
  /\ workflowActions (tables db') = workflowActions (tables ex_db)
  /\ exists ts ss trs,
       workflowTemplates (tables db') = workflowTemplates (tables ex_db) ++ ts
       /\ workflowSteps (tables db') = workflowSteps (tables ex_db) ++ ss
       /\ workflowStepTransitions (tables db') =
          workflowStepTransitions (tables ex_db) ++ trs.
Proof.
  exact (proj1 (creating_procedures_only_append 20 21 ex_create ex_start
                  ex_db)
           (Ok (created_template 20 ex_create ex_db)) _ eq_refl).
Defined.

(** X12 on the example: template 1 is started twice for invoice 50. *)
Lemma startWorkflow_twice_witness :
  let i := started_instance 20 ex_start ex_t1 ex_s1 ex_u1 ex_db in
  exists i2 db'',
    startWorkflow 30 ex_start (started 20 ex_start ex_t1 ex_s1 ex_u1 ex_db)
    = (Ok i2, db'')
    /\ Instance.id i2 = Instance.id i + 1
    /\ Instance.workflowTemplateId i2 = Instance.workflowTemplateId i
    /\ Instance.currentStepId i2 = Instance.currentStepId i
    /\ Instance.currentAssigneeId i2 = Instance.currentAssigneeId i
    /\ Instance.entityType i2 = Instance.entityType i
    /\ Instance.entityId i2 = Instance.entityId i
    /\ Instance.status i2 = Instance.ACTIVE
    /\ workflowInstances (tables db'') =
       workflowInstances (tables ex_db) ++ [i; i2].
Proof.
  exact (startWorkflow_twice 20 ex_start ex_db _ _ 30 eq_refl).
Defined.

